(** * hydrofunctions.usgs_rdb: reading the USGS rdb text format

    A shallow embedding of [hydrofunctions/usgs_rdb.py] and the properties
    of [read_rdb], [stats], [rating_curve], [field_meas] and [peaks].

    Conventions of the embedding.
    - A Python [str] is a [string]; a character is the code point
      U+0000..U+00FF that the [ascii] value encodes.
    - A Python call either returns a value or raises: [result A].
    - A local variable that is assigned only on some paths of a function is
      an [option]; reading it while still unbound raises
      [UnboundLocalError].
    - [pandas.read_csv] and [requests] are libraries, not part of this
      module; the behaviour the module relies on is modelled in
      [Module pd], [Module requests] and [Module frame], restricted to the
      arguments this module passes. *)

From Stdlib Require Import String Ascii List ZArith Bool Lia DecimalString.
Import ListNotations.

Local Open Scope string_scope.
Local Open Scope list_scope.

(** ** Python values and exceptions *)

Inductive exn : Type :=
| IndexError
| UnboundLocalError (name : string)
| ValueError (msg : string)
| EmptyDataError
| ParserError
| KeyError (key : string)
| HTTPError (status : Z).

(** The class name of an exception, as [type(e).__name__] gives it. *)
Definition exn_name (e : exn) : string :=
  match e with
  | IndexError => "IndexError"
  | UnboundLocalError _ => "UnboundLocalError"
  | ValueError _ => "ValueError"
  | EmptyDataError => "EmptyDataError"
  | ParserError => "ParserError"
  | KeyError _ => "KeyError"
  | HTTPError _ => "HTTPError"
  end.

Inductive result (A : Type) : Type :=
| Ok (a : A)
| Raise (e : exn).

Arguments Ok {A} a.
Arguments Raise {A} e.

Definition bind {A B : Type} (r : result A) (k : A -> result B) : result B :=
  match r with
  | Ok a => k a
  | Raise e => Raise e
  end.

Notation "x <- r ;; k" := (bind r (fun x => k))
  (at level 61, r at next level, right associativity).

(** Reading a local variable: unbound locals raise. *)
Definition load {A : Type} (name : string) (v : option A) : result A :=
  match v with
  | Some a => Ok a
  | None => Raise (UnboundLocalError name)
  end.

(** ** The [str] methods the module uses *)

Definition LF : ascii := "010"%char.
Definition CR : ascii := "013"%char.
Definition TAB : ascii := "009"%char.

Definition code_in (c : ascii) (codes : list nat) : bool :=
  existsb (Nat.eqb (nat_of_ascii c)) codes.

(** Line boundaries of [str.splitlines]: \n \v \f \r \x1c \x1d \x1e \x85
    (and \r\n as one boundary). *)
Definition is_linebreak (c : ascii) : bool :=
  code_in c [10; 11; 12; 13; 28; 29; 30; 133].

(** Characters [str.split()] and [str.isspace] treat as whitespace. *)
Definition py_isspace (c : ascii) : bool :=
  code_in c [9; 10; 11; 12; 13; 28; 29; 30; 31; 32; 133; 160].

(** [text.splitlines()]: no line keeps its boundary, and a final boundary
    does not open an empty last line. *)
Fixpoint splitlines (s : string) : list string :=
  match s with
  | EmptyString => []
  | String c rest =>
      if is_linebreak c then
        match rest with
        | String c' rest' =>
            if (Ascii.eqb c CR && Ascii.eqb c' LF)%bool
            then EmptyString :: splitlines rest'
            else EmptyString :: splitlines rest
        | EmptyString => [EmptyString]
        end
      else
        match splitlines rest with
        | [] => [String c EmptyString]
        | l :: ls => String c l :: ls
        end
  end.

(** [line.split()]: the maximal runs of non-whitespace characters. *)
Fixpoint split_from (word : string) (s : string) : list string :=
  match s with
  | EmptyString => if String.eqb word EmptyString then [] else [word]
  | String c rest =>
      if py_isspace c then
        if String.eqb word EmptyString then split_from EmptyString rest
        else word :: split_from EmptyString rest
      else split_from (word ++ String c EmptyString) rest
  end.

Definition split (line : string) : list string := split_from EmptyString line.

(** ["\n".join(lines)] *)
Definition join_lines (lines : list string) : string :=
  String.concat (String LF EmptyString) lines.

(** ** [read_rdb], lines 39-53: sorting the lines into sections *)

Record locals : Type := mkLocals {
  header : list string;
  datalines : list string;
  count : nat;
  columns : option (list string);
  dtype : option (list string)
}.

Definition initial_locals : locals :=
  {| header := []; datalines := []; count := 0; columns := None; dtype := None |}.

(** One iteration of [for line in text.splitlines()]. [line[0]] raises
    [IndexError] on the empty string. *)
Definition loop_body (st : locals) (line : string) : result locals :=
  match line with
  | EmptyString => Raise IndexError
  | String c0 _ =>
      if Ascii.eqb c0 "#" then
        Ok {| header := header st ++ [line]; datalines := datalines st;
              count := count st; columns := columns st; dtype := dtype st |}
      else if Nat.eqb (count st) 0 then
        Ok {| header := header st; datalines := datalines st;
              count := count st + 1; columns := Some (split line); dtype := dtype st |}
      else if Nat.eqb (count st) 1 then
        Ok {| header := header st; datalines := datalines st;
              count := count st + 1; columns := columns st; dtype := Some (split line) |}
      else
        Ok {| header := header st; datalines := datalines st ++ [line];
              count := count st; columns := columns st; dtype := dtype st |}
  end.

Fixpoint for_lines (lines : list string) (st : locals) : result locals :=
  match lines with
  | [] => Ok st
  | line :: rest => st' <- loop_body st line ;; for_lines rest st'
  end.

(** ** The model of [pandas.read_csv]

    [read_rdb] calls
    [pd.read_csv(StringIO(data), sep="\t", comment="#", header=None,
                 names=columns, dtype={"site_no": str, "parameter_cd": str})].
    pandas is a library, not code of this repository.  The model follows
    the C parser that this call selects (tokenizer.c and parsers.pyx) with
    every other option at its default: the double quote as quote
    character, doubled inside a quoted field; blank lines skipped; the
    default NA strings; a line with too many fields is an error.

    The source pins no version of pandas.  The model follows pandas 2,
    and the properties below are stated where the versions agree.  Three
    places are known where they do not: a data block of a single line with
    fewer fields than there are names (pandas before 2.0 raises ParserError,
    later versions complete the line), a column whose type is inferred
    and that holds an integer literal outside the int64 range (kept as
    text, or as a Python integer from pandas 3.0 on), and the string None,
    which is on the NA list from pandas 2.0 on.

    What is left out: carriage returns (the lines [read_rdb] joins hold
    none), reading a long file in several chunks, and the value of a
    float64 cell, which is carried as the text it was read from (so a
    literal too large for a float64 is not told apart). *)

Module pd.

(** A scalar of a DataFrame.  [CTimestamp] is what [pd.to_datetime] stores
    (used by [field_meas] and [peaks] on the frame they get back). *)
Inductive Cell : Type :=
| CStr (s : string)
| CInt (z : Z)
| CFloat (lexeme : string)
| CBool (b : bool)
| CTimestamp (iso : string)
| NaN.

(** The frame: the implicit index levels (none for the default
    RangeIndex) and the named columns, all of the same length. *)
Record DataFrame : Type := mkFrame {
  index : list (list Cell);
  data : list (string * list Cell)
}.

(** The values a [dtype=] dictionary holds here: only [str]. *)
Inductive DType : Type := dtype_str.

Definition dict_get {V : Type} (d : list (string * V)) (k : string) : option V :=
  option_map snd (find (fun kv => String.eqb (fst kv) k) d).

(** *** tokenizer.c *)

Inductive ParserState : Type :=
| START_RECORD
| START_FIELD
| IN_FIELD
| IN_QUOTED_FIELD
| QUOTE_IN_QUOTED_FIELD
| EAT_COMMENT
| EAT_LINE_COMMENT
| WHITESPACE_LINE.

Record parser_t : Type := mkParser {
  state : ParserState;
  stream : string;             (* the field being read *)
  words : list string;         (* the fields of the line being read *)
  lines : list (list string)   (* the lines read *)
}.

Definition parser_init : parser_t :=
  {| state := START_RECORD; stream := EmptyString; words := []; lines := [] |}.

Definition set_state (s : ParserState) (p : parser_t) : parser_t :=
  {| state := s; stream := stream p; words := words p; lines := lines p |}.

Definition PUSH_CHAR (c : ascii) (p : parser_t) : parser_t :=
  {| state := state p; stream := stream p ++ String c EmptyString;
     words := words p; lines := lines p |}.

Definition END_FIELD (p : parser_t) : parser_t :=
  {| state := state p; stream := EmptyString;
     words := words p ++ [stream p]; lines := lines p |}.

(** The test of the number of fields that end_line makes is [check_fields]
    below: it needs the width that the first line fixes. *)
Definition END_LINE (p : parser_t) : parser_t :=
  {| state := START_RECORD; stream := EmptyString;
     words := []; lines := lines p ++ [words p] |}.

Definition delimiter : ascii := TAB.
Definition commentsymbol : ascii := "#"%char.
Definition quotechar : ascii := "034"%char.
Definition space : ascii := " "%char.

Definition in_field (c : ascii) (p : parser_t) : parser_t :=
  if Ascii.eqb c LF then END_LINE (END_FIELD p)
  else if Ascii.eqb c delimiter then set_state START_FIELD (END_FIELD p)
  else if Ascii.eqb c commentsymbol then set_state EAT_COMMENT (END_FIELD p)
  else PUSH_CHAR c p.

Definition start_field (c : ascii) (p : parser_t) : parser_t :=
  if Ascii.eqb c LF then END_LINE (END_FIELD p)
  else if Ascii.eqb c quotechar then set_state IN_QUOTED_FIELD p
  else if Ascii.eqb c delimiter then set_state START_FIELD (END_FIELD p)
  else if Ascii.eqb c commentsymbol then set_state EAT_COMMENT (END_FIELD p)
  else set_state IN_FIELD (PUSH_CHAR c p).

(** One character of tokenize_bytes.  In WHITESPACE_LINE the blanks seen so
    far are kept in [stream]: when the line turns out not to be blank the C
    code goes back to its start and reads it again from START_FIELD, which
    leaves it IN_FIELD with exactly those blanks pushed. *)
Definition tokenize_byte (p : parser_t) (c : ascii) : parser_t :=
  match state p with
  | START_RECORD =>
      if Ascii.eqb c LF then p
      else if Ascii.eqb c commentsymbol then set_state EAT_LINE_COMMENT p
      else if Ascii.eqb c space then set_state WHITESPACE_LINE (PUSH_CHAR c p)
      else start_field c p
  | WHITESPACE_LINE =>
      if Ascii.eqb c LF then
        {| state := START_RECORD; stream := EmptyString;
           words := words p; lines := lines p |}
      else if Ascii.eqb c space then PUSH_CHAR c p
      else in_field c (set_state IN_FIELD p)
  | START_FIELD => start_field c p
  | IN_FIELD => in_field c p
  | IN_QUOTED_FIELD =>
      if Ascii.eqb c quotechar then set_state QUOTE_IN_QUOTED_FIELD p
      else PUSH_CHAR c p
  | QUOTE_IN_QUOTED_FIELD =>
      if Ascii.eqb c quotechar then set_state IN_QUOTED_FIELD (PUSH_CHAR c p)
      else if Ascii.eqb c delimiter then set_state START_FIELD (END_FIELD p)
      else if Ascii.eqb c LF then END_LINE (END_FIELD p)
      else set_state IN_FIELD (PUSH_CHAR c p)
  | EAT_COMMENT =>
      if Ascii.eqb c LF then END_LINE p else p
  | EAT_LINE_COMMENT =>
      if Ascii.eqb c LF then set_state START_RECORD p else p
  end.

Fixpoint tokenize_bytes (buf : string) (p : parser_t) : parser_t :=
  match buf with
  | EmptyString => p
  | String c rest => tokenize_bytes rest (tokenize_byte p c)
  end.

Definition parser_handle_eof (p : parser_t) : result (list (list string)) :=
  match state p with
  | START_RECORD | WHITESPACE_LINE | EAT_LINE_COMMENT => Ok (lines p)
  | IN_QUOTED_FIELD => Raise ParserError
  | QUOTE_IN_QUOTED_FIELD | IN_FIELD | START_FIELD =>
      Ok (lines (END_LINE (END_FIELD p)))
  | EAT_COMMENT => Ok (lines (END_LINE p))
  end.

Definition tokenize_all_rows (buf : string) : result (list (list string)) :=
  parser_handle_eof (tokenize_bytes buf parser_init).

(** *** parsers.pyx: the width of the table

    The first line is never too long.  Once it is read the reader expects
    [max (fields of the first line) (len names)] fields: a later line with
    more raises ParserError ("Expected n fields in line k, saw m"), a line
    with fewer is completed with empty fields. *)

Definition check_fields (expected_fields : nat) (rows : list (list string))
  : result unit :=
  if forallb (fun row => Nat.leb (List.length row) expected_fields) rows
  then Ok tt else Raise ParserError.

(** COLITER_NEXT: the word of column [col] on a line, the empty word when
    the line is too short. *)
Definition coliter (col : nat) (rows : list (list string)) : list string :=
  map (fun row => nth col row EmptyString) rows.

(** *** parsers.pyx: converting a column *)

(** STR_NA_VALUES, the strings read as missing when [na_values] is not
    given and [keep_default_na] is left on. *)
Definition STR_NA_VALUES : list string :=
  [ "-1.#IND"; "1.#QNAN"; "1.#IND"; "-1.#QNAN"; "#N/A N/A"; "#N/A"; "N/A";
    "n/a"; "NA"; "<NA>"; "#NA"; "NULL"; "null"; "NaN"; "-NaN"; "nan";
    "-nan"; "None"; EmptyString ].

Definition is_na (word : string) : bool :=
  existsb (String.eqb word) STR_NA_VALUES.

(** _string_convert: an object column. *)
Definition string_convert (na_filter : bool) (col : list string) : list Cell :=
  map (fun word => if (na_filter && is_na word)%bool then NaN else CStr word) col.

Definition isspace_ascii (c : ascii) : bool := code_in c [9; 10; 11; 12; 13; 32].

Definition isdigit_ascii (c : ascii) : bool :=
  (Nat.leb 48 (nat_of_ascii c) && Nat.leb (nat_of_ascii c) 57)%bool.

Fixpoint skip_spaces (p : string) : string :=
  match p with
  | String c rest => if isspace_ascii c then skip_spaces rest else p
  | EmptyString => p
  end.

(** A run of digits: its value after [number], how many there were added
    to [n], and what follows. *)
Fixpoint read_digits (number : Z) (n : nat) (p : string) : Z * nat * string :=
  match p with
  | String c rest =>
      if isdigit_ascii c
      then read_digits (number * 10 + (Z.of_nat (nat_of_ascii c) - 48)) (S n) rest
      else (number, n, p)
  | EmptyString => (number, n, p)
  end.

Definition INT64_MIN : Z := - 2 ^ 63.
Definition INT64_MAX : Z := 2 ^ 63 - 1.
Definition UINT64_MAX : Z := 2 ^ 64 - 1.

Inductive int_status : Type :=
| INT_OK (number : Z)
| ERROR_NO_DIGITS
| ERROR_OVERFLOW
| ERROR_INVALID_CHARS.

Definition at_end (p : string) : bool :=
  match skip_spaces p with EmptyString => true | _ => false end.

(** [*p] and [p + 1] on a C string: past the end [*p] is the NUL byte. *)
Definition peek (p : string) : ascii :=
  match p with
  | String c _ => c
  | EmptyString => zero
  end.

Definition next (p : string) : string :=
  match p with
  | String _ rest => rest
  | EmptyString => EmptyString
  end.

Definition str_to_int64 (p_item : string) : int_status :=
  let p := skip_spaces p_item in
  let isneg := Ascii.eqb (peek p) "-" in
  let p := if (isneg || Ascii.eqb (peek p) "+")%bool then next p else p in
  let '(number, ndigits, p) := read_digits 0 0 p in
  if Nat.eqb ndigits 0 then ERROR_NO_DIGITS
  else
    let number := if isneg then (- number)%Z else number in
    if (Z.ltb number INT64_MIN || Z.ltb INT64_MAX number)%bool then ERROR_OVERFLOW
    else if at_end p then INT_OK number else ERROR_INVALID_CHARS.

(** str_to_uint64 with its [uint_state]: a word that starts with a minus
    sign is only recorded in [seen_sint]. *)
Record uint_state : Type := mkUintState {
  seen_sint : bool;
  seen_uint : bool;
  seen_null : bool
}.

Definition str_to_uint64 (st : uint_state) (p_item : string) : uint_state * int_status :=
  let p := skip_spaces p_item in
  if Ascii.eqb (peek p) "-" then
    ({| seen_sint := true; seen_uint := seen_uint st; seen_null := seen_null st |},
     INT_OK 0)
  else
    let p := if Ascii.eqb (peek p) "+" then next p else p in
    let '(number, ndigits, p) := read_digits 0 0 p in
    if Nat.eqb ndigits 0 then (st, ERROR_NO_DIGITS)
    else if Z.ltb UINT64_MAX number then (st, ERROR_OVERFLOW)
    else if at_end p then
      ({| seen_sint := seen_sint st;
          seen_uint := (seen_uint st || Z.ltb INT64_MAX number)%bool;
          seen_null := seen_null st |}, INT_OK number)
    else (st, ERROR_INVALID_CHARS).

Definition lower (c : ascii) : ascii :=
  let n := nat_of_ascii c in
  if (Nat.leb 65 n && Nat.leb n 90)%bool then ascii_of_nat (n + 32) else c.

Fixpoint strcasecmp_eq (a b : string) : bool :=
  match a, b with
  | EmptyString, EmptyString => true
  | String x a', String y b' => (Ascii.eqb (lower x) (lower y) && strcasecmp_eq a' b')%bool
  | _, _ => false
  end.

Definition skip_sign (p : string) : string :=
  if (Ascii.eqb (peek p) "-" || Ascii.eqb (peek p) "+")%bool then next p else p.

(** xstrtod followed by the test that the whole word was used: blanks, a
    sign, digits with at most one decimal point and at least one digit, an
    exponent with at least one digit, blanks.  Only whether the word is
    read as a float64 is modelled, not the value. *)
Definition xstrtod_ok (word : string) : bool :=
  let p := skip_sign (skip_spaces word) in
  let '(_, n_int, p) := read_digits 0 0 p in
  let '(_, num_digits, p) :=
    if Ascii.eqb (peek p) "." then read_digits 0 n_int (next p) else (0%Z, n_int, p) in
  if Nat.eqb num_digits 0 then false
  else
    let p :=
      if Ascii.eqb (lower (peek p)) "e" then
        let '(_, n_exp, p') := read_digits 0 0 (skip_sign (next p)) in
        if Nat.eqb n_exp 0 then p else p'
      else p in
    at_end p.

Definition to_double (word : string) : bool :=
  (xstrtod_ok word
   || existsb (strcasecmp_eq word)
        ["inf"; "+inf"; "-inf"; "infinity"; "+infinity"; "-infinity"])%bool.

Definition to_boolean (item : string) : option bool :=
  if strcasecmp_eq item "TRUE" then Some true
  else if strcasecmp_eq item "FALSE" then Some false
  else None.

(** The outcome of one attempt of [_convert_with_dtype]: the column, with
    how many NA it holds; [None]; or an exception caught by
    [_convert_tokens]. *)
Inductive attempt : Type :=
| Converted (col_res : list Cell) (na_count : nat)
| NoResult
| Overflow
| NumericConflict.

(** _try_int64: stops at the first word that is neither NA nor an int64. *)
Fixpoint try_int64 (col : list string) : attempt :=
  match col with
  | [] => Converted [] 0
  | word :: rest =>
      if is_na word then
        match try_int64 rest with
        | Converted cells na_count => Converted (NaN :: cells) (S na_count)
        | other => other
        end
      else
        match str_to_int64 word with
        | INT_OK number =>
            match try_int64 rest with
            | Converted cells na_count => Converted (CInt number :: cells) na_count
            | other => other
            end
        | ERROR_OVERFLOW => Overflow
        | _ => NoResult
        end
  end.

Fixpoint try_uint64_words (st : uint_state) (col : list string)
  : uint_state * attempt :=
  match col with
  | [] => (st, Converted [] 0)
  | word :: rest =>
      if is_na word then
        match try_uint64_words
                {| seen_sint := seen_sint st; seen_uint := seen_uint st;
                   seen_null := true |} rest with
        | (st', Converted cells na_count) => (st', Converted (CInt 0 :: cells) na_count)
        | other => other
        end
      else
        match str_to_uint64 st word with
        | (st1, INT_OK number) =>
            match try_uint64_words st1 rest with
            | (st', Converted cells na_count) =>
                (st', Converted (CInt number :: cells) na_count)
            | other => other
            end
        | (st1, ERROR_OVERFLOW) => (st1, Overflow)
        | (st1, _) => (st1, NoResult)
        end
  end.

(** _try_uint64: [uint64_conflict] raises ValueError, a signed word
    OverflowError. *)
Definition try_uint64 (col : list string) : attempt :=
  match try_uint64_words
          {| seen_sint := false; seen_uint := false; seen_null := false |} col with
  | (st, Converted cells _) =>
      if (seen_uint st && (seen_null st || seen_sint st))%bool then NumericConflict
      else if seen_sint st then Overflow
      else Converted cells 0
  | (_, other) => other
  end.

(** _try_double *)
Fixpoint try_double (col : list string) : attempt :=
  match col with
  | [] => Converted [] 0
  | word :: rest =>
      if is_na word then
        match try_double rest with
        | Converted cells na_count => Converted (NaN :: cells) (S na_count)
        | other => other
        end
      else if to_double word then
        match try_double rest with
        | Converted cells na_count => Converted (CFloat word :: cells) na_count
        | other => other
        end
      else NoResult
  end.

(** _try_bool_flex *)
Fixpoint try_bool_flex (col : list string) : attempt :=
  match col with
  | [] => Converted [] 0
  | word :: rest =>
      if is_na word then
        match try_bool_flex rest with
        | Converted cells na_count => Converted (NaN :: cells) (S na_count)
        | other => other
        end
      else
        match to_boolean word with
        | Some b =>
            match try_bool_flex rest with
            | Converted cells na_count => Converted (CBool b :: cells) na_count
            | other => other
            end
        | None => NoResult
        end
  end.

(** _maybe_upcast of an int64 column that holds NA: it becomes float64. *)
Definition upcast_int (col : list string) : list Cell :=
  map (fun word => if is_na word then NaN else CFloat word) col.

(** _convert_tokens for a column without a dtype: int64, float64, bool,
    object, in [dtype_cast_order].  An int64 overflow is tried again as
    uint64; ValueError leaves the column as it is, read as text without the
    NA filter; OverflowError reads it as text. *)
Definition infer_column (col : list string) : list Cell :=
  let after_int :=
    match try_int64 col with
    | Overflow => try_uint64 col
    | other => other
    end in
  match after_int with
  | Converted cells na_count =>
      if Nat.eqb na_count 0 then cells else upcast_int col
  | NumericConflict => string_convert false col
  | Overflow => string_convert true col
  | NoResult =>
      match try_double col with
      | Converted cells _ => cells
      | _ =>
          match try_bool_flex col with
          | Converted cells _ => cells
          | _ => string_convert true col
          end
      end
  end.

Definition convert_tokens (col_dtype : option DType) (col : list string) : list Cell :=
  match col_dtype with
  | Some dtype_str => string_convert true col
  | None => infer_column col
  end.

(** *** read_csv *)

Fixpoint has_duplicates (names : list string) : bool :=
  match names with
  | [] => false
  | n :: rest => (existsb (String.eqb n) rest || has_duplicates rest)%bool
  end.

Definition validate_names (names : list string) : result unit :=
  if has_duplicates names
  then Raise (ValueError "Duplicate names are not allowed.")
  else Ok tt.

(** The columns [leading_cols .. table_width) take the names in order. *)
Fixpoint named_columns (dtype : list (string * DType)) (rows : list (list string))
    (col : nat) (names : list string) : list (string * list Cell) :=
  match names with
  | [] => []
  | name :: rest =>
      (name, convert_tokens (dict_get dtype name) (coliter col rows))
        :: named_columns dtype rows (S col) rest
  end.

(** When the first line has more fields than there are names, the first
    [leading_cols] columns become the index. *)
Definition index_columns (rows : list (list string)) (leading_cols : nat)
  : list (list Cell) :=
  map (fun col => convert_tokens None (coliter col rows)) (seq 0 leading_cols).

(** TextReader: the table width, the check of the later lines, and the
    conversion of every column. *)
Definition leading_cols (rows : list (list string)) (names : list string) : nat :=
  Nat.max (List.length (hd [] rows)) (List.length names) - List.length names.

Definition read_rows (rows : list (list string)) (names : list string)
    (dtype : list (string * DType)) : result DataFrame :=
  match rows with
  | [] =>
      match names with
      | [] => Raise EmptyDataError
      | _ => Ok {| index := []; data := map (fun name => (name, [])) names |}
      end
  | first :: others =>
      let field_count := Nat.max (List.length first) (List.length names) in
      _ <- check_fields field_count others ;;
      Ok {| index := index_columns rows (leading_cols rows names);
            data := named_columns dtype rows (leading_cols rows names) names |}
  end.

Definition read_csv (buf : string) (names : list string)
    (dtype : list (string * DType)) : result DataFrame :=
  _ <- validate_names names ;;
  rows <- tokenize_all_rows buf ;;
  read_rows rows names dtype.

(** [df[name]] *)
Definition column (df : DataFrame) (name : string) : option (list Cell) :=
  dict_get (data df) name.

End pd.

(** ** [read_rdb] *)

Definition dtype_arg : list (string * pd.DType) :=
  [("site_no", pd.dtype_str); ("parameter_cd", pd.dtype_str)].

Definition read_rdb (text : string)
  : result (pd.DataFrame * list string * list string * list string) :=
  st <- for_lines (splitlines text) initial_locals ;;
  let data := join_lines (datalines st) in
  names <- load "columns" (columns st) ;;
  outputDF <- pd.read_csv data names dtype_arg ;;
  hints <- load "dtype" (dtype st) ;;
  Ok (outputDF, names, hints, header st).

(** ** [stats]

    [requests.get] is the environment: a function from the request to the
    response it gets.  What [stats] prints and displays is collected in a
    trace, which also records the call of [read_rdb]. *)

Module requests.

Record Response : Type := mkResponse {
  status_code : Z;
  text : string;
  url : string
}.

(** [Response.raise_for_status]: HTTPError for the client and server error
    codes, 400 to 599, and nothing otherwise. *)
Definition raise_for_status (r : Response) : result unit :=
  if (Z.leb 400 (status_code r) && Z.ltb (status_code r) 600)%bool
  then Raise (HTTPError (status_code r))
  else Ok tt.

End requests.

Definition dict : Type := list (string * string).

(** [d[key] = value] *)
Fixpoint setitem (d : dict) (key value : string) : dict :=
  match d with
  | [] => [(key, value)]
  | (k, v) :: rest =>
      if String.eqb k key then (k, value) :: rest else (k, v) :: setitem rest key value
  end.

(** [d.update(other)] *)
Definition update (d other : dict) : dict :=
  fold_left (fun acc kv => setitem acc (fst kv) (snd kv)) other d.

(** [d[key]] *)
Definition getitem (d : dict) (key : string) : result string :=
  match pd.dict_get d key with
  | Some v => Ok v
  | None => Raise (KeyError key)
  end.

Inductive effect : Type :=
| print (line : string)
| display_HTML (body : string)
| call_read_rdb (text : string).

(** What [stats] hands back: the frame, or on line 285 the response. *)
Inductive stats_value : Type :=
| returned_frame (outputDF : pd.DataFrame)
| returned_response (response : requests.Response).

Definition io (A : Type) : Type := (list effect * result A)%type.

Definition io_bind {A B : Type} (m : io A) (k : A -> io B) : io B :=
  match m with
  | (out, Ok a) => let '(out', r) := k a in (out ++ out', r)
  | (out, Raise e) => (out, Raise e)
  end.

Definition io_ret {A : Type} (a : A) : io A := ([], Ok a).
Definition emit (e : effect) : io unit := ([e], Ok tt).
Definition lift {A : Type} (r : result A) : io A := ([], r).

Notation "x <~ m ;; k" := (io_bind m (fun x => k))
  (at level 61, m at next level, right associativity).

Definition str_of_int (n : Z) : string := NilZero.string_of_int (Z.to_int n).

Section Stats.

Variable requests_get : string -> dict -> dict -> requests.Response.

Definition stats (site statReportType : string) (kwargs : dict) : io stats_value :=
  let url := "https://waterservices.usgs.gov/nwis/stat/" in
  let headers := [("Accept-encoding", "gzip")] in
  let params :=
    update [("statReportType", statReportType); ("statType", "all");
            ("sites", site); ("format", "rdb")] kwargs in
  let response := requests_get url headers params in
  report <~ lift (getitem params "statReportType") ;;
  sites <~ lift (getitem params "sites") ;;
  _ <~ emit (print ("Retrieving " ++ report ++ " statistics for site #" ++ sites
                    ++ " from " ++ requests.url response)) ;;
  if negb (Z.eqb (requests.status_code response) 200) then
    _ <~ emit (print ("The USGS has returned an error code of "
                      ++ str_of_int (requests.status_code response))) ;;
    _ <~ emit (display_HTML (requests.text response)) ;;
    _ <~ lift (requests.raise_for_status response) ;;
    io_ret (returned_response response)
  else
    _ <~ emit (call_read_rdb (requests.text response)) ;;
    parsed <~ lift (read_rdb (requests.text response)) ;;
    let '(outputDF, _, _, _) := parsed in
    io_ret (returned_frame outputDF).

End Stats.

(** ** [field_meas], [peaks] and [rating_curve]

    The three other fetchers get a document, read it with [read_rdb] and
    reshape the frame.  The operations of pandas they use on the frame are
    modelled in [Module frame]; [pd.to_datetime] is a parameter: a function
    from a column to the column of its timestamps, or to the exception it
    raises. *)

Module frame.

(** [df.name], for a name that is no attribute of DataFrame itself: the
    column of that name, [None] when pandas raises AttributeError. *)
Definition getattr (df : pd.DataFrame) (name : string) : option (list pd.Cell) :=
  pd.column df name.

Fixpoint replace_column (cols : list (string * list pd.Cell)) (name : string)
    (values : list pd.Cell) : list (string * list pd.Cell) :=
  match cols with
  | [] => []
  | (n, cells) :: rest =>
      if String.eqb n name then (n, values) :: rest
      else (n, cells) :: replace_column rest name values
  end.

(** [df.name = values], for an existing column [name] and a Series of
    values on the index of the frame (what [pd.to_datetime] returns for a
    column of the frame): the column is replaced where it stands. *)
Definition setattr (df : pd.DataFrame) (name : string) (values : list pd.Cell)
  : pd.DataFrame :=
  {| pd.index := pd.index df;
     pd.data := replace_column (pd.data df) name values |}.

(** [df.set_index(name, inplace=True)]: the column becomes the index and
    leaves the columns; the index there was is dropped. *)
Definition set_index (df : pd.DataFrame) (name : string) : result pd.DataFrame :=
  match pd.column df name with
  | None => Raise (KeyError ("None of ['" ++ name ++ "'] are in the columns"))
  | Some cells =>
      Ok {| pd.index := [cells];
            pd.data := filter (fun named => negb (String.eqb (fst named) name))
                              (pd.data df) |}
  end.

(** [df.columns = names]: the columns are renamed in order; another number
    of names is a ValueError. *)
Definition set_columns (df : pd.DataFrame) (names : list string)
  : result pd.DataFrame :=
  if Nat.eqb (List.length names) (List.length (pd.data df)) then
    Ok {| pd.index := pd.index df;
          pd.data := combine names (map snd (pd.data df)) |}
  else
    Raise (ValueError
             ("Length mismatch: Expected axis has "
              ++ str_of_int (Z.of_nat (List.length (pd.data df)))
              ++ " elements, new values have "
              ++ str_of_int (Z.of_nat (List.length names)) ++ " elements")).

End frame.

(** How a call of a fetcher ends: as [result], or with the AttributeError
    of a frame that has no column of the name asked for. *)
Inductive outcome (A : Type) : Type :=
| Returns (a : A)
| Raises (e : exn)
| RaisesAttributeError (name : string).

Arguments Returns {A} a.
Arguments Raises {A} e.
Arguments RaisesAttributeError {A} name.

Definition outcome_of {A : Type} (r : result A) : outcome A :=
  match r with
  | Ok a => Returns a
  | Raise e => Raises e
  end.

Section Fetchers.

Variable requests_get : string -> dict -> dict -> requests.Response.

(** [pd.to_datetime] on a column. *)
Variable to_datetime : list pd.Cell -> result (list pd.Cell).

(** [print(a, b, c, d)] writes its arguments with a blank between them. *)
Definition print4 (a b c d : string) : effect :=
  print (a ++ " " ++ b ++ " " ++ c ++ " " ++ d).

Definition field_meas (site : string) : list effect * outcome pd.DataFrame :=
  let url : string :=
    ("https://waterdata.usgs.gov/pa/nwis/measurements?site_no=" ++ site
    ++ "&agency_cd=USGS&format=rdb_expanded")%string in
  let headers := [("Accept-encoding", "gzip")] in
  let out := [print4 "Retrieving field measurements for site #" site " from " url] in
  let response := requests_get url headers [] in
  let out := out ++ [call_read_rdb (requests.text response)] in
  match read_rdb (requests.text response) with
  | Raise e => (out, Raises e)
  | Ok (outputDF, _, _, _) =>
      match frame.getattr outputDF "measurement_dt" with
      | None => (out, RaisesAttributeError "measurement_dt")
      | Some measurement_dt =>
          (out,
           outcome_of
             (converted <- to_datetime measurement_dt ;;
              let outputDF := frame.setattr outputDF "measurement_dt" converted in
              frame.set_index outputDF "measurement_dt"))
      end
  end.

Definition peaks (site : string) : list effect * outcome pd.DataFrame :=
  let url : string :=
    ("https://nwis.waterdata.usgs.gov/nwis/peak?site_no=" ++ site
    ++ "&agency_cd=USGS&format=rdb")%string in
  let headers := [("Accept-encoding", "gzip")] in
  let out := [print4 "Retrieving annual peak discharges for site #" site " from " url] in
  let response := requests_get url headers [] in
  let out := out ++ [call_read_rdb (requests.text response)] in
  match read_rdb (requests.text response) with
  | Raise e => (out, Raises e)
  | Ok (outputDF, _, _, _) =>
      match frame.getattr outputDF "peak_dt" with
      | None => (out, RaisesAttributeError "peak_dt")
      | Some peak_dt =>
          (out,
           outcome_of
             (converted <- to_datetime peak_dt ;;
              let outputDF := frame.setattr outputDF "peak_dt" converted in
              frame.set_index outputDF "peak_dt"))
      end
  end.

Definition rating_curve (site : string) : io pd.DataFrame :=
  let url : string :=
    ("https://waterdata.usgs.gov/nwisweb/data/ratings/exsa/USGS." ++ site
    ++ ".exsa.rdb")%string in
  let headers := [("Accept-encoding", "gzip")] in
  _ <~ emit (print4 "Retrieving rating curve for site #" site " from " url) ;;
  let response := requests_get url headers [] in
  _ <~ emit (call_read_rdb (requests.text response)) ;;
  parsed <~ lift (read_rdb (requests.text response)) ;;
  let '(outputDF, _, _, _) := parsed in
  lift (frame.set_columns outputDF ["stage"; "shift"; "discharge"; "stor"]).

End Fetchers.

(** ** Notions used to state the properties *)

(** A comment line: its first character is [#]. *)
Definition is_comment_line (line : string) : bool :=
  match line with
  | String c0 _ => Ascii.eqb c0 "#"
  | EmptyString => false
  end.

Definition non_comment (line : string) : bool := negb (is_comment_line line).

(** The lines of a document that are not comment lines: the column-name
    row, the type-hint row and the data lines, in that order. *)
Definition non_comment_lines (text : string) : list string :=
  filter non_comment (splitlines text).

(** The fields of the data block of a document, line by line, as the reader
    tokenizes them. *)
Definition data_rows (text : string) : result (list (list string)) :=
  st <- for_lines (splitlines text) initial_locals ;;
  pd.tokenize_all_rows (join_lines (datalines st)).

(** A line that holds none of the characters [splitlines] breaks at. *)
Definition no_linebreak (line : string) : Prop :=
  forallb (fun c => negb (is_linebreak c)) (list_ascii_of_string line) = true.

(** What [read_rdb] does after the loop. *)
Definition after_loop (st : locals)
  : result (pd.DataFrame * list string * list string * list string) :=
  names <- load "columns" (columns st) ;;
  outputDF <- pd.read_csv (join_lines (datalines st)) names dtype_arg ;;
  hints <- load "dtype" (dtype st) ;;
  Ok (outputDF, names, hints, header st).

(** What holds of the locals at every point of the loop: [count] says
    which of [columns] and [dtype] are bound, and no data line is kept
    before both are. *)
Definition locals_inv (st : locals) : Prop :=
  match count st with
  | 0 => columns st = None /\ dtype st = None /\ datalines st = []
  | 1 => columns st <> None /\ dtype st = None /\ datalines st = []
  | 2 => columns st <> None /\ dtype st <> None
  | _ => False
  end.

(** Kinds of cells. *)
Definition is_string_cell (c : pd.Cell) : bool :=
  match c with
  | pd.CStr _ => true
  | _ => false
  end.

Definition is_timestamp (c : pd.Cell) : bool :=
  match c with
  | pd.CTimestamp _ => true
  | _ => false
  end.

Definition int_cell (c : pd.Cell) : Prop := exists z, c = pd.CInt z.

Definition float_cells (col : list string) : list pd.Cell :=
  map (fun word => if pd.is_na word then pd.NaN else pd.CFloat word) col.

Definition bool_cell (word : string) (c : pd.Cell) : Prop :=
  if pd.is_na word then c = pd.NaN else exists b, c = pd.CBool b.

(** The cell of a field in a column that [dtype=str] makes text: NaN for
    the empty field, the field itself when it is not on the NA list, and
    one or the other for the other strings of the list. *)
Definition text_or_missing (word : string) (c : pd.Cell) : Prop :=
  if String.eqb word EmptyString then c = pd.NaN
  else if pd.is_na word then c = pd.CStr word \/ c = pd.NaN
  else c = pd.CStr word.

(** The five shapes of an inferred column: integers (no NA among the
    fields), floats, booleans, text, or the fields as they are. *)
Inductive inferred (col : list string) (cells : list pd.Cell) : Prop :=
| inferred_int :
    Forall (fun word => pd.is_na word = false) col ->
    Forall2 (fun _ c => int_cell c) col cells -> inferred col cells
| inferred_float : cells = float_cells col -> inferred col cells
| inferred_bool : Forall2 bool_cell col cells -> inferred col cells
| inferred_text : cells = pd.string_convert true col -> inferred col cells
| inferred_as_is :
    pd.try_int64 col = pd.Overflow ->
    cells = pd.string_convert false col -> inferred col cells.

(** A line completed with empty fields up to [width]. *)
Definition pad_row (width : nat) (row : list string) : list string :=
  row ++ repeat EmptyString (width - List.length row).

(** The type code of a hint of the rdb format: its first character that is
    not a digit ([s], [n] or [d]).  [read_rdb] never computes it. *)
Fixpoint type_code (hint : string) : option ascii :=
  match hint with
  | EmptyString => None
  | String c rest => if pd.isdigit_ascii c then type_code rest else Some c
  end.

(** A word of the form YYYY-MM-DD. *)
Definition is_date_word (word : string) : bool :=
  match list_ascii_of_string word with
  | [y1; y2; y3; y4; h1; m1; m2; h2; d1; d2] =>
      (forallb pd.isdigit_ascii [y1; y2; y3; y4; m1; m2; d1; d2]
       && Ascii.eqb h1 "-" && Ascii.eqb h2 "-")%bool
  | _ => false
  end.

Definition date_or_empty (word : string) : Prop :=
  word = EmptyString \/ is_date_word word = true.

(** What a column of dates and empty fields is read as. *)
Definition date_cells (col : list string) : list pd.Cell :=
  map (fun word => if String.eqb word EmptyString then pd.NaN else pd.CStr word) col.

(** The response [stats] gets from [requests.get]. *)
Definition the_response (requests_get : string -> dict -> dict -> requests.Response)
    (site statReportType : string) (kwargs : dict) : requests.Response :=
  requests_get "https://waterservices.usgs.gov/nwis/stat/"
    [("Accept-encoding", "gzip")]
    (update [("statReportType", statReportType); ("statType", "all");
             ("sites", site); ("format", "rdb")] kwargs).

(** The query parameters [stats] sends: its defaults, updated with the
    keyword arguments. *)
Definition stats_params (site statReportType : string) (kwargs : dict) : dict :=
  update [("statReportType", statReportType); ("statType", "all");
          ("sites", site); ("format", "rdb")] kwargs.

(** ** Documents used as examples *)

Definition nl : string := String LF EmptyString.
Definition tab : string := String TAB EmptyString.

(** Comment lines before and after the two rows, one of them a lone [#]. *)
Definition header_example : string :=
  "#" ++ nl ++ "# a" ++ nl ++ "site_no" ++ tab ++ "x" ++ nl ++ "5s" ++ tab ++ "3n"
  ++ nl ++ "#late" ++ nl ++ "01" ++ tab ++ "2" ++ nl.

(** An empty line between two data lines. *)
Definition blank_line_example : string :=
  "site_no" ++ tab ++ "x" ++ nl ++ "5s" ++ tab ++ "3n" ++ nl
  ++ "01" ++ tab ++ "2" ++ nl ++ nl ++ "02" ++ tab ++ "3" ++ nl.

(** A comment line after the two rows. *)
Definition late_comment_example : string :=
  "a b" ++ nl ++ "1s 2s" ++ nl ++ "#x" ++ nl ++ "1" ++ tab ++ "2".

(** Two documents that differ in their hint row only. *)
Definition hint_example_1 : string :=
  "# c" ++ nl ++ "site_no" ++ tab ++ "x" ++ nl ++ "5s" ++ tab ++ "3n" ++ nl
  ++ "01" ++ tab ++ "2" ++ nl.

Definition hint_example_2 : string :=
  "# c" ++ nl ++ "site_no" ++ tab ++ "x" ++ nl ++ "15n" ++ tab ++ "10d" ++ nl
  ++ "01" ++ tab ++ "2" ++ nl.

(** Two documents that differ in their hint row only, the second with
    nothing on that line. *)
Definition hint_example_3 : string := "a" ++ nl ++ "1s" ++ nl ++ "1" ++ nl.

Definition hint_example_4 : string := "a" ++ nl ++ nl ++ "1" ++ nl.

(** Identifier columns: digits in [site_no] and in [value_cd], and an empty
    [site_no]. *)
Definition identifier_example : string :=
  "agency_cd" ++ tab ++ "site_no" ++ tab ++ "value_cd" ++ nl
  ++ "5s" ++ tab ++ "15n" ++ tab ++ "6n" ++ nl
  ++ "USGS" ++ tab ++ "01546500" ++ tab ++ "123" ++ nl
  ++ "USGS" ++ tab ++ tab ++ "456" ++ nl.

Definition identifier_frame : pd.DataFrame :=
  {| pd.index := [];
     pd.data :=
       [ ("agency_cd", [pd.CStr "USGS"; pd.CStr "USGS"]);
         ("site_no", [pd.CStr "01546500"; pd.NaN]);
         ("value_cd", [pd.CInt 123; pd.CInt 456]) ] |}.

(** A line with one field, and a line with three, where two are named. *)
Definition short_row_example : string :=
  "a" ++ tab ++ "b" ++ nl ++ "3n" ++ tab ++ "3n" ++ nl
  ++ "1" ++ tab ++ "2" ++ nl ++ "3" ++ nl.

Definition long_row_example : string :=
  "a" ++ tab ++ "b" ++ nl ++ "3n" ++ tab ++ "3n" ++ nl
  ++ "1" ++ tab ++ "2" ++ nl ++ "3" ++ tab ++ "4" ++ tab ++ "5" ++ nl.

Definition short_row_locals (lines : list string) : locals :=
  {| header := []; datalines := lines; count := 2;
     columns := Some ["a"; "b"]; dtype := Some ["3n"; "3n"] |}.

(** An empty field in the text column [site_no] and one in the numeric
    column [x]. *)
Definition empty_field_example : string :=
  "site_no" ++ tab ++ "x" ++ nl ++ "15s" ++ tab ++ "6n" ++ nl
  ++ "01" ++ tab ++ "1" ++ nl ++ tab ++ "2" ++ nl ++ "03" ++ tab ++ nl.

Definition empty_field_frame : pd.DataFrame :=
  {| pd.index := [];
     pd.data := [ ("site_no", [pd.CStr "01"; pd.NaN; pd.CStr "03"]);
                  ("x", [pd.CFloat "1"; pd.CFloat "2"; pd.NaN]) ] |}.

(** A column hinted [d]: with dates and an empty field, and with a field
    that is no date. *)
Definition date_example : string :=
  "site_no" ++ tab ++ "peak_dt" ++ nl ++ "15s" ++ tab ++ "10d" ++ nl
  ++ "01" ++ tab ++ "2020-01-01" ++ nl ++ "01" ++ tab ++ nl
  ++ "01" ++ tab ++ "1999-12-31" ++ nl.

Definition not_a_date_example : string :=
  "site_no" ++ tab ++ "peak_dt" ++ nl ++ "15s" ++ tab ++ "10d" ++ nl
  ++ "01" ++ tab ++ "2020-01-01" ++ nl ++ "01" ++ tab ++ "yesterday" ++ nl.

(** A rating curve of four columns, and a document of field measurements. *)
Definition rating_example : string :=
  "INDEP" ++ tab ++ "SHIFT" ++ tab ++ "DEP" ++ tab ++ "STOR" ++ nl
  ++ "16N" ++ tab ++ "16N" ++ tab ++ "16N" ++ tab ++ "1S" ++ nl
  ++ "2.75" ++ tab ++ "0.00" ++ tab ++ "13.5" ++ tab ++ "*" ++ nl.

Definition measurement_example : string :=
  "site_no" ++ tab ++ "measurement_dt" ++ tab ++ "discharge_va" ++ nl
  ++ "15s" ++ tab ++ "19d" ++ tab ++ "12s" ++ nl
  ++ "01541200" ++ tab ++ "2020-01-01" ++ tab ++ "2.5" ++ nl.

Definition peak_example : string :=
  "site_no" ++ tab ++ "peak_dt" ++ tab ++ "peak_va" ++ nl
  ++ "15s" ++ tab ++ "10d" ++ tab ++ "8s" ++ nl
  ++ "01541200" ++ tab ++ "1936-03-18" ++ tab ++ "25600" ++ nl.

(** A stand-in for [pd.to_datetime] in the examples: the text of a cell
    becomes a timestamp. *)
Definition timestamps (cells : list pd.Cell) : result (list pd.Cell) :=
  Ok (map (fun c => match c with
                    | pd.CStr s => pd.CTimestamp s
                    | other => other
                    end) cells).

(** * Properties of the line loop *)

Lemma bind_Ok {A B : Type} (r : result A) (k : A -> result B) (b : B) :
  (x <- r ;; k x) = Ok b -> exists a, r = Ok a /\ k a = Ok b.
Proof. destruct r as [a|e]; simpl; intros H; [eauto | discriminate]. Qed.

Lemma for_lines_app (l1 l2 : list string) (st : locals) :
  for_lines (l1 ++ l2) st = (st' <- for_lines l1 st ;; for_lines l2 st').
Proof.
  revert st. induction l1 as [|line l1 IH]; intros st; simpl; [reflexivity|].
  destruct (loop_body st line) as [st1|e]; simpl; [apply IH | reflexivity].
Qed.

(** The loop body only fails on an empty line. *)
Lemma loop_body_total (st : locals) (line : string) :
  line <> EmptyString -> exists st', loop_body st line = Ok st'.
Proof.
  intros Hne. destruct line as [|c0 rest]; [congruence|]. unfold loop_body.
  destruct (Ascii.eqb c0 "#"); [eauto|].
  destruct (Nat.eqb (count st) 0); [eauto|].
  destruct (Nat.eqb (count st) 1); eauto.
Qed.

Lemma loop_body_blank (st : locals) : loop_body st EmptyString = Raise IndexError.
Proof. reflexivity. Qed.

Lemma loop_body_Ok_nonblank (st st' : locals) (line : string) :
  loop_body st line = Ok st' -> line <> EmptyString.
Proof. destruct line; simpl; [discriminate | congruence]. Qed.

Lemma loop_body_comment (st : locals) (line : string) :
  is_comment_line line = true ->
  loop_body st line =
    Ok {| header := header st ++ [line]; datalines := datalines st;
          count := count st; columns := columns st; dtype := dtype st |}.
Proof.
  destruct line as [|c0 rest]; simpl; [discriminate|]. intros ->. reflexivity.
Qed.

Lemma loop_body_header (st st' : locals) (line : string) :
  loop_body st line = Ok st' ->
  header st' = header st ++ (if is_comment_line line then [line] else []).
Proof.
  destruct line as [|c0 rest]; simpl; [discriminate|].
  destruct (Ascii.eqb c0 "#"); [intros [= <-]; reflexivity|].
  destruct (Nat.eqb (count st) 0); [intros [= <-]; simpl; now rewrite app_nil_r|].
  destruct (Nat.eqb (count st) 1); intros [= <-]; simpl; now rewrite app_nil_r.
Qed.

Lemma for_lines_header (lines : list string) (st st' : locals) :
  for_lines lines st = Ok st' ->
  header st' = header st ++ filter is_comment_line lines.
Proof.
  revert st. induction lines as [|line lines IH]; intros st; simpl.
  - intros [= <-]. now rewrite app_nil_r.
  - intros H. apply bind_Ok in H as (st1 & H1 & H2).
    rewrite (IH _ H2), (loop_body_header _ _ _ H1), <- app_assoc.
    now destruct (is_comment_line line).
Qed.

Lemma for_lines_total (lines : list string) (st : locals) :
  Forall (fun line => line <> EmptyString) lines ->
  exists st', for_lines lines st = Ok st'.
Proof.
  intros Hall. revert st. induction Hall as [|line lines Hne _ IH]; intros st; simpl.
  - eauto.
  - destruct (loop_body_total st line Hne) as [st1 ->]. simpl. apply IH.
Qed.

Lemma for_lines_blank (lines : list string) (st : locals) :
  In EmptyString lines -> for_lines lines st = Raise IndexError.
Proof.
  revert st. induction lines as [|line lines IH]; intros st Hin; [destruct Hin|].
  simpl. destruct line as [|c0 rest].
  - reflexivity.
  - destruct Hin as [Heq|Hin]; [discriminate|].
    destruct (loop_body_total st (String c0 rest)) as [st1 ->]; [discriminate|].
    simpl. now apply IH.
Qed.

Lemma for_lines_Ok_nonblank (lines : list string) (st st' : locals) :
  for_lines lines st = Ok st' -> ~ In EmptyString lines.
Proof.
  intros H Hin. rewrite (for_lines_blank _ _ Hin) in H. discriminate.
Qed.

(** The loop raises nothing but IndexError. *)
Lemma for_lines_Raise (lines : list string) (st : locals) (e : exn) :
  for_lines lines st = Raise e -> e = IndexError /\ In EmptyString lines.
Proof.
  revert st. induction lines as [|line lines IH]; intros st; simpl; [discriminate|].
  destruct line as [|c0 rest].
  - simpl. intros [= <-]. auto.
  - destruct (loop_body_total st (String c0 rest)) as [st1 Hst1]; [discriminate|].
    rewrite Hst1. simpl. intros H. destruct (IH _ H). auto.
Qed.

Lemma read_rdb_Ok (text : string) (df : pd.DataFrame) (names hints hdr : list string) :
  read_rdb text = Ok (df, names, hints, hdr) ->
  exists st,
    for_lines (splitlines text) initial_locals = Ok st /\
    columns st = Some names /\ dtype st = Some hints /\ header st = hdr /\
    pd.read_csv (join_lines (datalines st)) names dtype_arg = Ok df.
Proof.
  unfold read_rdb. intros H.
  apply bind_Ok in H as (st & Hst & H). exists st. split; [exact Hst|].
  destruct (columns st) as [names'|]; simpl in H; [|discriminate].
  apply bind_Ok in H as (df' & Hdf & H).
  destruct (dtype st) as [hints'|]; simpl in H; [|discriminate].
  injection H as <- <- <- <-. auto.
Qed.

(** No line of [splitlines] holds a line break, so none reaches the data
    block but the newlines that join its lines. *)
Lemma splitlines_no_linebreak (text : string) :
  Forall no_linebreak (splitlines text).
Proof.
  assert (H : forall n s, String.length s <= n -> Forall no_linebreak (splitlines s)).
  { induction n as [|n IH]; intros s Hlen.
    - destruct s; [constructor | cbn in Hlen; lia].
    - destruct s as [|c rest]; [constructor|]. cbn [String.length] in Hlen.
      cbn [splitlines]. destruct (is_linebreak c) eqn:Hc.
      + destruct rest as [|c' rest'].
        * repeat constructor.
        * cbn [String.length] in Hlen.
          destruct (Ascii.eqb c CR && Ascii.eqb c' LF)%bool;
            (constructor; [reflexivity | apply IH; cbn [String.length]; lia]).
      + assert (Hrest : Forall no_linebreak (splitlines rest)) by (apply IH; lia).
        destruct (splitlines rest) as [|l ls].
        * repeat constructor. unfold no_linebreak.
          cbn [list_ascii_of_string forallb]. now rewrite Hc.
        * inversion Hrest as [|? ? Hl Hls]; subst. constructor; [|exact Hls].
          unfold no_linebreak in *. cbn [list_ascii_of_string forallb].
          now rewrite Hc. }
  apply (H (String.length text)). lia.
Qed.

Lemma loop_body_datalines (st st' : locals) (line l : string) :
  loop_body st line = Ok st' -> In l (datalines st') ->
  In l (datalines st) \/ l = line.
Proof.
  destruct line as [|c0 rest]; [discriminate|]. unfold loop_body.
  destruct (Ascii.eqb c0 "#"); [intros [= <-]; auto|].
  destruct (Nat.eqb (count st) 0); [intros [= <-]; auto|].
  destruct (Nat.eqb (count st) 1); intros [= <-]; cbn [datalines]; auto.
  intros Hin. apply in_app_or in Hin as [Hin | [<- | []]]; auto.
Qed.

Lemma for_lines_datalines (lines : list string) (st st' : locals) (l : string) :
  for_lines lines st = Ok st' -> In l (datalines st') ->
  In l (datalines st) \/ In l lines.
Proof.
  revert st. induction lines as [|line lines IH]; intros st; cbn [for_lines].
  - intros [= <-]. auto.
  - intros H Hin. apply bind_Ok in H as (st1 & H1 & H2).
    destruct (IH _ H2 Hin) as [Hin1 | Hin1]; [|right; right; exact Hin1].
    destruct (loop_body_datalines _ _ _ _ H1 Hin1) as [? | ->]; [auto|].
    right. left. reflexivity.
Qed.

Lemma datalines_no_linebreak (text : string) (st : locals) :
  for_lines (splitlines text) initial_locals = Ok st ->
  Forall no_linebreak (datalines st).
Proof.
  intros H. apply Forall_forall. intros l Hin.
  destruct (for_lines_datalines _ _ _ _ H Hin) as [[] | Hl].
  pose proof (splitlines_no_linebreak text) as Hall.
  rewrite Forall_forall in Hall. auto.
Qed.


(** ** The states of the loop *)

Lemma initial_locals_inv : locals_inv initial_locals.
Proof. unfold locals_inv; simpl; auto. Qed.

Lemma loop_body_inv (st st' : locals) (line : string) :
  locals_inv st -> loop_body st line = Ok st' -> locals_inv st'.
Proof.
  unfold locals_inv. destruct line as [|c0 rest]; simpl; [discriminate|].
  destruct (Ascii.eqb c0 "#"); [intros H [= <-]; exact H|].
  destruct (count st) as [|[|[|n]]] eqn:Hc; simpl.
  - intros (_ & Hd & Hl) [= <-]; simpl. repeat split; auto. discriminate.
  - intros (Hcol & _ & _) [= <-]; simpl. split; [exact Hcol | discriminate].
  - intros H [= <-]; simpl. exact H.
  - intros [].
Qed.

Lemma for_lines_inv (lines : list string) (st st' : locals) :
  locals_inv st -> for_lines lines st = Ok st' -> locals_inv st'.
Proof.
  revert st. induction lines as [|line lines IH]; intros st Hinv; simpl.
  - intros [= <-]; exact Hinv.
  - intros H. apply bind_Ok in H as (st1 & H1 & H2).
    exact (IH _ (loop_body_inv _ _ _ Hinv H1) H2).
Qed.

Lemma loop_body_count (st st' : locals) (line : string) :
  count st <= 2 -> loop_body st line = Ok st' ->
  count st' = Nat.min 2 (count st + (if non_comment line then 1 else 0)).
Proof.
  unfold non_comment. destruct line as [|c0 rest]; [discriminate|].
  unfold loop_body, is_comment_line.
  destruct (Ascii.eqb c0 "#"); cbn [negb]; [intros Hle [= <-]; cbn [count]; lia|].
  destruct (count st) as [|[|[|n]]] eqn:Hc; cbn [Nat.eqb];
    intros Hle [= <-]; cbn [count]; lia.
Qed.

(** No backward transition: [count] never decreases. *)
Lemma loop_body_count_le (st st' : locals) (line : string) :
  loop_body st line = Ok st' -> count st <= count st'.
Proof.
  destruct line as [|c0 rest]; simpl; [discriminate|].
  destruct (Ascii.eqb c0 "#"); [intros [= <-]; simpl; lia|].
  destruct (Nat.eqb (count st) 0); [intros [= <-]; simpl; lia|].
  destruct (Nat.eqb (count st) 1); intros [= <-]; simpl; lia.
Qed.

Lemma for_lines_count (lines : list string) (st st' : locals) :
  count st <= 2 -> for_lines lines st = Ok st' ->
  count st' = Nat.min 2 (count st + List.length (filter non_comment lines)).
Proof.
  revert st. induction lines as [|line lines IH]; intros st Hle; cbn [for_lines filter].
  - intros [= <-]. cbn [List.length]. lia.
  - intros H. apply bind_Ok in H as (st1 & H1 & H2).
    pose proof (loop_body_count _ _ _ Hle H1) as Hc1.
    rewrite (IH st1) by (try exact H2; lia). rewrite Hc1.
    destruct (non_comment line); cbn [List.length]; lia.
Qed.

(** Once both rows are read, a line only goes to [header] or to
    [datalines]. *)
Lemma loop_body_data (st st' : locals) (line : string) :
  count st = 2 -> loop_body st line = Ok st' ->
  count st' = 2 /\ columns st' = columns st /\ dtype st' = dtype st /\
  header st' = header st ++ (if is_comment_line line then [line] else []) /\
  datalines st' = datalines st ++ (if non_comment line then [line] else []).
Proof.
  unfold non_comment. intros Hc. destruct line as [|c0 rest]; simpl; [discriminate|].
  rewrite Hc. destruct (Ascii.eqb c0 "#"); simpl; intros [= <-]; simpl;
    rewrite ?app_nil_r; auto.
Qed.

Lemma for_lines_data (lines : list string) (st st' : locals) :
  count st = 2 -> for_lines lines st = Ok st' ->
  count st' = 2 /\ columns st' = columns st /\ dtype st' = dtype st /\
  header st' = header st ++ filter is_comment_line lines /\
  datalines st' = datalines st ++ filter non_comment lines.
Proof.
  revert st. induction lines as [|line lines IH]; intros st Hc; simpl.
  - intros [= <-]. rewrite !app_nil_r. auto.
  - intros H. apply bind_Ok in H as (st1 & H1 & H2).
    destruct (loop_body_data _ _ _ Hc H1) as (Hc1 & Hcol & Hdt & Hh & Hd).
    destruct (IH _ Hc1 H2) as (Hc' & Hcol' & Hdt' & Hh' & Hd').
    rewrite Hh', Hd', Hh, Hd, <- !app_assoc.
    repeat split; try congruence.
    + now destruct (is_comment_line line).
    + now destruct (non_comment line).
Qed.

(** C5.  A blank line is not tolerated: on an empty line [line[0]] raises
    IndexError, so every text with an empty line, wherever it is, makes
    [read_rdb] fail. *)
Theorem blank_line_raises (text : string) :
  In EmptyString (splitlines text) -> read_rdb text = Raise IndexError.
Proof.
  intros Hin. unfold read_rdb. now rewrite (for_lines_blank _ _ Hin).
Qed.

Lemma blank_line_raises_witness : read_rdb blank_line_example = Raise IndexError.
Proof.
  apply (blank_line_raises blank_line_example).
  vm_compute. right. right. right. left. reflexivity.
Defined.

(** One final line break opens no empty line, two do. *)
Example trailing_newline :
  (exists df, read_rdb ("x" ++ nl ++ "3n" ++ nl ++ "1" ++ nl)
              = Ok (df, ["x"], ["3n"], [])) /\
  read_rdb ("x" ++ nl ++ "3n" ++ nl ++ "1" ++ nl ++ nl) = Raise IndexError.
Proof. split; [eexists|]; vm_compute; reflexivity. Qed.

(** C4, as the code has it.  [count] never goes back, and once the
    column-name row and the type-hint row are read every remaining line
    that does not begin with [#] is appended verbatim to the data lines,
    which are then joined with newlines; a remaining line that begins with
    [#] is appended to the header instead. *)
Theorem data_block_after_rows (text : string) (before rest : list string) (st : locals) :
  splitlines text = before ++ rest ->
  for_lines before initial_locals = Ok st ->
  count st = 2 ->
  Forall (fun line => line <> EmptyString) rest ->
  (forall s line s', loop_body s line = Ok s' -> count s <= count s') /\
  exists st',
    for_lines (splitlines text) initial_locals = Ok st' /\
    count st' = 2 /\ columns st' = columns st /\ dtype st' = dtype st /\
    header st' = header st ++ filter is_comment_line rest /\
    datalines st' = datalines st ++ filter non_comment rest /\
    join_lines (datalines st') =
      join_lines (datalines st ++ filter non_comment rest).
Proof.
  intros Hsplit Hbefore Hc Hrest. split; [intros s line s'; apply loop_body_count_le|].
  destruct (for_lines_total rest st Hrest) as [st' Hst'].
  exists st'. rewrite Hsplit, for_lines_app, Hbefore. simpl.
  destruct (for_lines_data _ _ _ Hc Hst') as (? & ? & ? & ? & Hd).
  rewrite Hd. auto 10.
Qed.

Lemma data_block_after_rows_witness :
  exists st',
    for_lines (splitlines late_comment_example) initial_locals = Ok st' /\
    header st' = ["#x"] /\ datalines st' = [("1" ++ tab ++ "2")%string].
Proof.
  destruct (data_block_after_rows late_comment_example
              ["a b"; "1s 2s"] ["#x"; ("1" ++ tab ++ "2")%string]
              {| header := []; datalines := []; count := 2;
                 columns := Some ["a"; "b"]; dtype := Some ["1s"; "2s"] |})
    as (_ & st' & H & _ & _ & _ & Hh & Hd & _).
  - reflexivity.
  - reflexivity.
  - reflexivity.
  - repeat constructor; discriminate.
  - exists st'. auto.
Defined.

(** The claim as the spec states it fails on a comment line that follows
    the two rows: it is not part of the data block. *)
Lemma data_block_counterexample :
  exists st st',
    for_lines ["a b"; "1s 2s"] initial_locals = Ok st /\ count st = 2 /\
    for_lines (["a b"; "1s 2s"] ++ ["#x"; "1"]) initial_locals = Ok st' /\
    datalines st' <> datalines st ++ ["#x"; "1"] /\
    join_lines (datalines st') <> join_lines (datalines st ++ ["#x"; "1"]).
Proof.
  do 2 eexists. split; [reflexivity|]. split; [reflexivity|].
  split; [reflexivity|]. split; vm_compute; discriminate.
Qed.

(** ** Documents without their rows *)

Lemma for_lines_comments (lines : list string) (st : locals) :
  filter non_comment lines = [] ->
  for_lines lines st =
    Ok {| header := header st ++ lines; datalines := datalines st;
          count := count st; columns := columns st; dtype := dtype st |}.
Proof.
  revert st. induction lines as [|line lines IH]; intros st; cbn [filter for_lines].
  - intros _. rewrite app_nil_r. now destruct st.
  - unfold non_comment at 1. destruct (is_comment_line line) eqn:Hl; cbn [negb];
      [|discriminate].
    intros Hrest. rewrite (loop_body_comment _ _ Hl). cbn [bind].
    rewrite (IH _ Hrest). cbn [header datalines count columns dtype].
    now rewrite <- app_assoc.
Qed.

Lemma read_rdb_after_loop (text : string) :
  read_rdb text = (st <- for_lines (splitlines text) initial_locals ;; after_loop st).
Proof. reflexivity. Qed.

(** Without data lines the reader has nothing to fail on but the names. *)
Lemma read_csv_no_data (names : list string) :
  pd.read_csv (join_lines []) names dtype_arg =
    if pd.has_duplicates names
    then Raise (ValueError "Duplicate names are not allowed.")
    else match names with
         | [] => Raise EmptyDataError
         | _ => Ok {| pd.index := []; pd.data := map (fun name => (name, [])) names |}
         end.
Proof.
  unfold pd.read_csv, pd.validate_names.
  destruct (pd.has_duplicates names); reflexivity.
Qed.

Lemma after_loop_no_rows (st : locals) :
  locals_inv st -> count st < 2 ->
  exists e, after_loop st = Raise e /\
    In e [ UnboundLocalError "columns"; UnboundLocalError "dtype";
           ValueError "Duplicate names are not allowed."; EmptyDataError ].
Proof.
  unfold locals_inv, after_loop. intros Hinv Hlt.
  destruct (count st) as [|[|n]]; [| |lia].
  - destruct Hinv as (-> & _ & _). eexists. split; [reflexivity|]. simpl; auto.
  - destruct Hinv as (Hcol & -> & ->).
    destruct (columns st) as [names|]; [|congruence]. cbn [load bind].
    rewrite read_csv_no_data.
    destruct (pd.has_duplicates names).
    + eexists. split; [reflexivity|]. simpl; auto.
    + destruct names as [|n0 names].
      * eexists. split; [reflexivity|]. simpl; auto.
      * eexists. split; [reflexivity|]. simpl; auto.
Qed.

Lemma for_lines_initial_count (lines : list string) (st : locals) :
  for_lines lines initial_locals = Ok st ->
  count st = Nat.min 2 (List.length (filter non_comment lines)).
Proof.
  intros H. apply for_lines_count in H; [exact H|]. cbn [count initial_locals]. lia.
Qed.

(** [columns] is assigned once, from the first line that is not a comment. *)
Lemma loop_body_columns (st st' : locals) (line : string) :
  1 <= count st -> loop_body st line = Ok st' ->
  columns st' = columns st /\ 1 <= count st'.
Proof.
  destruct line as [|c0 rest]; [discriminate|]. unfold loop_body.
  destruct (Ascii.eqb c0 "#"); [intros Hle [= <-]; auto|].
  destruct (count st) as [|[|n]] eqn:Hc; cbn [Nat.eqb]; intros Hle [= <-];
    cbn [columns count]; split; auto; lia.
Qed.

Lemma for_lines_columns (lines : list string) (st st' : locals) :
  1 <= count st -> for_lines lines st = Ok st' -> columns st' = columns st.
Proof.
  revert st. induction lines as [|line lines IH]; intros st Hle; cbn [for_lines].
  - now intros [= <-].
  - intros H. apply bind_Ok in H as (st1 & H1 & H2).
    destruct (loop_body_columns _ _ _ Hle H1) as [<- Hle1]. exact (IH _ Hle1 H2).
Qed.

Lemma loop_body_first_row (st st' : locals) (line : string) :
  count st = 0 -> non_comment line = true -> loop_body st line = Ok st' ->
  columns st' = Some (split line) /\ count st' = 1.
Proof.
  unfold non_comment. destruct line as [|c0 rest]; [discriminate|].
  unfold loop_body, is_comment_line. intros ->.
  destruct (Ascii.eqb c0 "#"); [discriminate|]. intros _ [= <-]. auto.
Qed.

Lemma for_lines_names (lines : list string) (st st' : locals) (line : string)
    (more : list string) :
  count st = 0 -> filter non_comment lines = line :: more ->
  for_lines lines st = Ok st' -> columns st' = Some (split line).
Proof.
  revert st. induction lines as [|l lines IH]; intros st Hc; cbn [filter for_lines];
    [discriminate|].
  intros Hf H. apply bind_Ok in H as (st1 & H1 & H2).
  destruct (non_comment l) eqn:Hl.
  - injection Hf as -> _.
    destruct (loop_body_first_row _ _ _ Hc Hl H1) as [Hcol Hc1].
    rewrite <- Hcol. apply (for_lines_columns lines); [lia | exact H2].
  - apply (IH st1); [|exact Hf|exact H2].
    unfold non_comment in Hl. apply negb_false_iff in Hl.
    rewrite (loop_body_comment _ _ Hl) in H1. injection H1 as <-. exact Hc.
Qed.

(** C6, as the code has it.  A document with fewer than two lines that are
    not comments (empty input, comment lines only, no column-name row, no
    type-hint row) makes [read_rdb] fail, with an exception of Python or of
    pandas and never one named TruncatedDocument: UnboundLocalError for
    [columns] when there is no column-name row; when only the type-hint row
    is missing, UnboundLocalError for [dtype], unless the only line is
    empty (IndexError) or pandas rejects the names first. *)
Theorem truncated_document_raises (text : string) :
  List.length (non_comment_lines text) < 2 ->
  (non_comment_lines text = [] ->
   read_rdb text = Raise (UnboundLocalError "columns")) /\
  (forall line name names,
     non_comment_lines text = [line] -> split line = name :: names ->
     pd.has_duplicates (name :: names) = false ->
     read_rdb text = Raise (UnboundLocalError "dtype")) /\
  exists e,
    read_rdb text = Raise e /\
    In e [ IndexError; UnboundLocalError "columns"; UnboundLocalError "dtype";
           ValueError "Duplicate names are not allowed."; EmptyDataError ] /\
    exn_name e <> "TruncatedDocument".
Proof.
  unfold non_comment_lines. intros Hlen.
  rewrite read_rdb_after_loop.
  split; [|split].
  - intros Hnil. rewrite (for_lines_comments _ _ Hnil). reflexivity.
  - intros line name names Hline Hsplit Hdup.
    destruct (for_lines (splitlines text) initial_locals) as [st|e] eqn:Hst.
    + cbn [bind].
      pose proof (for_lines_inv _ _ _ initial_locals_inv Hst) as Hinv.
      pose proof (for_lines_initial_count _ _ Hst) as Hc.
      pose proof (for_lines_names _ initial_locals _ _ _ eq_refl Hline Hst) as Hcol.
      rewrite Hline in Hc. cbn in Hc.
      unfold locals_inv in Hinv. rewrite Hc in Hinv. destruct Hinv as (_ & Hdt & Hd).
      unfold after_loop. rewrite Hcol, Hdt, Hd, Hsplit. cbn [load bind].
      rewrite read_csv_no_data, Hdup. reflexivity.
    + apply for_lines_Raise in Hst as [_ Hin].
      assert (Hin' : In EmptyString (filter non_comment (splitlines text)))
        by (apply filter_In; auto).
      rewrite Hline in Hin'. destruct Hin' as [->|[]]. discriminate Hsplit.
  - assert (Hex : exists e,
      (st <- for_lines (splitlines text) initial_locals ;; after_loop st) = Raise e /\
      In e [ IndexError; UnboundLocalError "columns"; UnboundLocalError "dtype";
             ValueError "Duplicate names are not allowed."; EmptyDataError ]).
    { destruct (for_lines (splitlines text) initial_locals) as [st|e] eqn:Hst.
      - cbn [bind].
        destruct (after_loop_no_rows st) as (e & He & Hin).
        + exact (for_lines_inv _ _ _ initial_locals_inv Hst).
        + rewrite (for_lines_initial_count _ _ Hst). lia.
        + exists e. split; [exact He|]. right. exact Hin.
      - apply for_lines_Raise in Hst as [-> _]. exists IndexError.
        split; [reflexivity|]. left. reflexivity. }
    destruct Hex as (e & He & Hin). exists e. split; [exact He|]. split; [exact Hin|].
    simpl in Hin.
    repeat (destruct Hin as [<-|Hin]; [simpl; discriminate|]). destruct Hin.
Qed.

Lemma truncated_document_raises_witness :
  read_rdb EmptyString = Raise (UnboundLocalError "columns") /\
  read_rdb ("# only a comment" ++ nl) = Raise (UnboundLocalError "columns") /\
  read_rdb ("# c" ++ nl ++ "site_no" ++ tab ++ "x" ++ nl)
    = Raise (UnboundLocalError "dtype").
Proof.
  split; [|split].
  - apply (truncated_document_raises EmptyString); [simpl; lia | reflexivity].
  - apply (truncated_document_raises ("# only a comment" ++ nl));
      [simpl; lia | reflexivity].
  - apply (proj1 (proj2 (truncated_document_raises
                           ("# c" ++ nl ++ "site_no" ++ tab ++ "x" ++ nl)
                           ltac:(simpl; lia)))
             ("site_no" ++ tab ++ "x")%string "site_no" ["x"]); reflexivity.
Defined.

(** The claim as the spec states it: no input makes the parse fail with an
    error named TruncatedDocument; empty input ends in the UnboundLocalError
    of Python. *)
Lemma truncated_document_counterexample :
  read_rdb EmptyString = Raise (UnboundLocalError "columns") /\
  ~ (exists e, read_rdb EmptyString = Raise e /\ exn_name e = "TruncatedDocument").
Proof.
  split; [reflexivity|]. intros (e & He & Hname).
  vm_compute in He. injection He as <-. discriminate.
Qed.

(** ** The type-hint row *)

Lemma loop_body_hint (st : locals) (hint : string) :
  count st = 1 -> non_comment hint = true -> hint <> EmptyString ->
  loop_body st hint =
    Ok {| header := header st; datalines := datalines st; count := 2;
          columns := columns st; dtype := Some (split hint) |}.
Proof.
  unfold non_comment. destruct hint as [|c0 rest]; [congruence|].
  unfold loop_body, is_comment_line. intros ->.
  destruct (Ascii.eqb c0 "#"); [discriminate|]. reflexivity.
Qed.

(** The lines after the hint row are read in the same way whatever the
    hint row held. *)
Lemma for_lines_after_hint (after : list string) (st : locals) (hint : string) :
  count st = 1 -> non_comment hint = true -> hint <> EmptyString ->
  (In EmptyString after /\ for_lines (hint :: after) st = Raise IndexError) \/
  (exists st',
     for_lines (hint :: after) st = Ok st' /\
     columns st' = columns st /\ dtype st' = Some (split hint) /\
     header st' = header st ++ filter is_comment_line after /\
     datalines st' = datalines st ++ filter non_comment after).
Proof.
  intros Hc Hnc Hne. cbn [for_lines]. rewrite (loop_body_hint _ _ Hc Hnc Hne).
  cbn [bind].
  destruct (for_lines after _) as [st'|e] eqn:Hst'.
  - right. exists st'. split; [reflexivity|].
    apply for_lines_data in Hst' as (_ & Hcol & Hdt & Hh & Hd); [|reflexivity].
    auto.
  - left. apply for_lines_Raise in Hst' as [-> Hin]. auto.
Qed.

(** C10, as the code has it.  Two texts that differ only in their
    type-hint row (the second line that is not a comment), when that row is
    in both texts a line that is not empty and does not begin with [#],
    give [read_rdb] the same outcome: the same exception, or the same
    table, the same column names and the same header, with for hints the
    words of each text's own hint row. *)
Theorem hint_row_noninterference (text1 text2 : string)
    (before after : list string) (hint1 hint2 : string) :
  splitlines text1 = before ++ hint1 :: after ->
  splitlines text2 = before ++ hint2 :: after ->
  List.length (filter non_comment before) = 1 ->
  non_comment hint1 = true -> hint1 <> EmptyString ->
  non_comment hint2 = true -> hint2 <> EmptyString ->
  match read_rdb text1, read_rdb text2 with
  | Ok (df1, names1, hints1, hdr1), Ok (df2, names2, hints2, hdr2) =>
      df1 = df2 /\ names1 = names2 /\ hdr1 = hdr2 /\
      hints1 = split hint1 /\ hints2 = split hint2
  | Raise e1, Raise e2 => e1 = e2
  | _, _ => False
  end.
Proof.
  intros H1 H2 Hlen Hnc1 Hne1 Hnc2 Hne2.
  rewrite !read_rdb_after_loop, H1, H2, !for_lines_app.
  destruct (for_lines before initial_locals) as [st|e] eqn:Hst; [|reflexivity].
  cbn [bind].
  assert (Hc : count st = 1).
  { rewrite (for_lines_initial_count _ _ Hst), Hlen. reflexivity. }
  destruct (for_lines_after_hint after st hint1 Hc Hnc1 Hne1)
    as [[Hin ->]|(st1 & Hr1 & Hcol1 & Hdt1 & Hh1 & Hd1)].
  - rewrite (for_lines_blank (hint2 :: after) st) by (right; exact Hin). reflexivity.
  - destruct (for_lines_after_hint after st hint2 Hc Hnc2 Hne2)
      as [[Hin Hr2]|(st2 & Hr2 & Hcol2 & Hdt2 & Hh2 & Hd2)].
    + exfalso. apply (for_lines_Ok_nonblank _ _ _ Hr1). right. exact Hin.
    + rewrite Hr1, Hr2. cbn [bind]. unfold after_loop.
      rewrite Hcol1, Hcol2, Hdt1, Hdt2, Hh1, Hh2, Hd1, Hd2.
      destruct (columns st) as [names|]; cbn [load bind]; [|reflexivity].
      destruct (pd.read_csv _ names dtype_arg) as [df|e]; cbn [bind]; auto.
Qed.

Lemma hint_row_noninterference_witness :
  match read_rdb hint_example_1, read_rdb hint_example_2 with
  | Ok (df1, names1, hints1, hdr1), Ok (df2, names2, hints2, hdr2) =>
      df1 = df2 /\ names1 = names2 /\ hdr1 = hdr2 /\
      hints1 = ["5s"; "3n"] /\ hints2 = ["15n"; "10d"]
  | Raise e1, Raise e2 => e1 = e2
  | _, _ => False
  end.
Proof.
  apply (hint_row_noninterference hint_example_1 hint_example_2
           ["# c"; ("site_no" ++ tab ++ "x")%string]
           [("01" ++ tab ++ "2")%string]
           ("5s" ++ tab ++ "3n")%string ("15n" ++ tab ++ "10d")%string);
    try reflexivity; discriminate.
Defined.

(** The claim as the spec states it fails when the hint row of one text is
    emptied: that text raises IndexError, the other returns its table. *)
Lemma hint_row_counterexample :
  splitlines hint_example_3 = ["a"] ++ "1s" :: ["1"] /\
  splitlines hint_example_4 = ["a"] ++ EmptyString :: ["1"] /\
  read_rdb hint_example_3
    = Ok ({| pd.index := []; pd.data := [("a", [pd.CInt 1])] |}, ["a"], ["1s"], []) /\
  read_rdb hint_example_4 = Raise IndexError.
Proof. repeat split; vm_compute; reflexivity. Qed.

(** ** The rows of a document *)

Lemma loop_body_first (st : locals) (line : string) :
  count st = 0 -> non_comment line = true -> line <> EmptyString ->
  loop_body st line =
    Ok {| header := header st; datalines := datalines st; count := 1;
          columns := Some (split line); dtype := dtype st |}.
Proof.
  unfold non_comment. destruct line as [|c0 rest]; [congruence|].
  unfold loop_body, is_comment_line. intros ->.
  destruct (Ascii.eqb c0 "#"); [discriminate|]. reflexivity.
Qed.

Lemma for_lines_cons_Ok (line : string) (lines : list string) (st st' : locals) :
  for_lines (line :: lines) st = Ok st' ->
  line <> EmptyString /\
  exists st1, loop_body st line = Ok st1 /\ for_lines lines st1 = Ok st'.
Proof.
  cbn [for_lines]. intros H. apply bind_Ok in H as (st1 & H1 & H2).
  split; [exact (loop_body_Ok_nonblank _ _ _ H1) | eauto].
Qed.

(** From the state that has read the column names. *)
Lemma for_lines_from_one (lines : list string) (st st' : locals) :
  count st = 1 -> for_lines lines st = Ok st' ->
  columns st' = columns st /\
  dtype st' = match filter non_comment lines with
              | [] => dtype st
              | row :: _ => Some (split row)
              end /\
  datalines st' = datalines st ++ skipn 1 (filter non_comment lines).
Proof.
  revert st. induction lines as [|line lines IH]; intros st Hc H.
  - injection H as <-. cbn. now rewrite app_nil_r.
  - apply for_lines_cons_Ok in H as (Hne & st1 & H1 & H2). cbn [filter].
    destruct (non_comment line) eqn:Hl.
    + rewrite (loop_body_hint _ _ Hc Hl Hne) in H1. injection H1 as <-.
      apply for_lines_data in H2 as (_ & Hcol & Hdt & _ & Hd); [|reflexivity].
      cbn [skipn]. auto.
    + unfold non_comment in Hl. apply negb_false_iff in Hl.
      rewrite (loop_body_comment _ _ Hl) in H1. injection H1 as <-.
      apply IH in H2; [exact H2 | exact Hc].
Qed.

(** From the state that has read nothing but comments. *)
Lemma for_lines_from_zero (lines : list string) (st st' : locals) :
  count st = 0 -> for_lines lines st = Ok st' ->
  columns st' = match filter non_comment lines with
                | [] => columns st
                | row :: _ => Some (split row)
                end /\
  dtype st' = match filter non_comment lines with
              | _ :: row :: _ => Some (split row)
              | _ => dtype st
              end /\
  datalines st' = datalines st ++ skipn 2 (filter non_comment lines).
Proof.
  revert st. induction lines as [|line lines IH]; intros st Hc H.
  - injection H as <-. cbn. now rewrite app_nil_r.
  - apply for_lines_cons_Ok in H as (Hne & st1 & H1 & H2). cbn [filter].
    destruct (non_comment line) eqn:Hl.
    + rewrite (loop_body_first _ _ Hc Hl Hne) in H1. injection H1 as <-.
      apply for_lines_from_one in H2 as (Hcol & Hdt & Hd); [|reflexivity].
      cbn [columns dtype datalines] in Hcol, Hdt, Hd.
      split; [exact Hcol|]. split; [|exact Hd].
      rewrite Hdt. now destruct (filter non_comment lines).
    + unfold non_comment in Hl. apply negb_false_iff in Hl.
      rewrite (loop_body_comment _ _ Hl) in H1. injection H1 as <-.
      apply IH in H2; [exact H2 | exact Hc].
Qed.

Lemma empty_line_non_comment (lines : list string) :
  In EmptyString lines <-> In EmptyString (filter non_comment lines).
Proof.
  rewrite filter_In. split; [intros H; split; [exact H | reflexivity] | tauto].
Qed.

Lemma for_lines_Ok_iff (lines : list string) (st : locals) :
  (exists st', for_lines lines st = Ok st') <-> ~ In EmptyString lines.
Proof.
  split.
  - intros [st' H]. exact (for_lines_Ok_nonblank _ _ _ H).
  - intros Hnin. apply for_lines_total. apply Forall_forall.
    intros line Hin ->. contradiction.
Qed.

(** [read_rdb] on a text without an empty line that has its two rows:
    the table is read from the lines after them that are not comments. *)
Lemma read_rdb_document (text row1 row2 : string) (rest : list string) :
  ~ In EmptyString (splitlines text) ->
  non_comment_lines text = row1 :: row2 :: rest ->
  read_rdb text =
    (df <- pd.read_csv (join_lines rest) (split row1) dtype_arg ;;
     Ok (df, split row1, split row2, filter is_comment_line (splitlines text))).
Proof.
  unfold non_comment_lines. intros Hnin Hrows.
  destruct (proj2 (for_lines_Ok_iff _ initial_locals) Hnin) as [st Hst].
  rewrite read_rdb_after_loop, Hst. cbn [bind].
  destruct (for_lines_from_zero _ initial_locals _ eq_refl Hst) as (Hcol & Hdt & Hd).
  rewrite Hrows in Hcol, Hdt, Hd. cbn [skipn datalines initial_locals app] in Hd.
  unfold after_loop. rewrite Hcol, Hdt, Hd. cbn [load bind].
  rewrite (for_lines_header _ _ _ Hst).
  now destruct (pd.read_csv (join_lines rest) (split row1) dtype_arg).
Qed.

(** The lines of the data block of such a text. *)
Lemma data_rows_document (text row1 row2 : string) (rest : list string) :
  ~ In EmptyString (splitlines text) ->
  non_comment_lines text = row1 :: row2 :: rest ->
  data_rows text = pd.tokenize_all_rows (join_lines rest).
Proof.
  unfold non_comment_lines, data_rows. intros Hnin Hrows.
  destruct (proj2 (for_lines_Ok_iff _ initial_locals) Hnin) as [st Hst].
  rewrite Hst. cbn [bind].
  destruct (for_lines_from_zero _ initial_locals _ eq_refl Hst) as (_ & _ & Hd).
  rewrite Hrows in Hd. cbn [skipn datalines initial_locals app] in Hd.
  now rewrite Hd.
Qed.

(** * Properties of the table *)

(** The tokenizer on lines that begin with blanks: a line of blanks only
    is skipped like an empty line; on any other line the blanks are the
    start of the first field. *)
Example leading_blanks :
  pd.tokenize_all_rows (" 1" ++ nl ++ "  " ++ nl ++ " 2") = Ok [[" 1"]; [" 2"]] /\
  pd.tokenize_all_rows ("  a b" ++ tab ++ " c" ++ nl ++ " " ++ tab ++ "d")
    = Ok [["  a b"; " c"]; [" "; "d"]] /\
  pd.read_csv (" 1" ++ nl ++ " 2") ["x"] dtype_arg
    = Ok {| pd.index := []; pd.data := [("x", [pd.CInt 1; pd.CInt 2])] |}.
Proof. repeat split; vm_compute; reflexivity. Qed.

Lemma read_csv_Ok (buf : string) (names : list string)
    (dt : list (string * pd.DType)) (df : pd.DataFrame) :
  pd.read_csv buf names dt = Ok df ->
  pd.has_duplicates names = false /\
  exists rows, pd.tokenize_all_rows buf = Ok rows /\ pd.read_rows rows names dt = Ok df.
Proof.
  unfold pd.read_csv, pd.validate_names.
  destruct (pd.has_duplicates names); cbn [bind]; [discriminate|].
  destruct (pd.tokenize_all_rows buf) as [rows|e]; cbn [bind]; [|discriminate].
  eauto.
Qed.

Lemma convert_tokens_nil (dt : option pd.DType) : pd.convert_tokens dt [] = [].
Proof. destruct dt as [[]|]; reflexivity. Qed.

Lemma named_columns_no_rows (dt : list (string * pd.DType)) (col : nat)
    (names : list string) :
  pd.named_columns dt [] col names = map (fun name => (name, [])) names.
Proof.
  revert col. induction names as [|name names IH]; intros col; cbn; [reflexivity|].
  now rewrite convert_tokens_nil, IH.
Qed.

(** The named columns of the frame that [read_rows] builds. *)
Lemma read_rows_data (rows : list (list string)) (names : list string)
    (dt : list (string * pd.DType)) (df : pd.DataFrame) :
  pd.read_rows rows names dt = Ok df ->
  pd.data df = pd.named_columns dt rows (pd.leading_cols rows names) names.
Proof.
  unfold pd.read_rows. destruct rows as [|first others].
  - destruct names; [discriminate|]. intros [= <-]. cbn [pd.data].
    now rewrite named_columns_no_rows.
  - destruct (pd.check_fields _ others); cbn [bind]; [|discriminate].
    now intros [= <-].
Qed.

Lemma dict_get_named_columns (dt : list (string * pd.DType))
    (rows : list (list string)) (col : nat) (names : list string)
    (name : string) (cells : list pd.Cell) :
  pd.dict_get (pd.named_columns dt rows col names) name = Some cells ->
  exists j, nth_error names j = Some name /\
    cells = pd.convert_tokens (pd.dict_get dt name) (pd.coliter (col + j) rows).
Proof.
  revert col. induction names as [|n names IH]; intros col; [discriminate|].
  unfold pd.dict_get. cbn [pd.named_columns find fst].
  destruct (String.eqb n name) eqn:Hn.
  - apply String.eqb_eq in Hn as ->. cbn. intros [= <-]. exists 0.
    rewrite Nat.add_0_r. auto.
  - intros H. destruct (IH (S col) H) as (j & Hj & ->). exists (S j).
    rewrite Nat.add_succ_r. auto.
Qed.

Lemma named_columns_lookup (dt : list (string * pd.DType))
    (rows : list (list string)) (col : nat) (names : list string)
    (j : nat) (name : string) :
  pd.has_duplicates names = false -> nth_error names j = Some name ->
  pd.dict_get (pd.named_columns dt rows col names) name =
    Some (pd.convert_tokens (pd.dict_get dt name) (pd.coliter (col + j) rows)).
Proof.
  revert col j. induction names as [|n names IH]; intros col j Hdup Hj;
    [destruct j; discriminate|].
  cbn [pd.has_duplicates] in Hdup. apply orb_false_iff in Hdup as [Hn Hdup].
  unfold pd.dict_get. cbn [pd.named_columns find fst].
  destruct j as [|j]; cbn [nth_error] in Hj.
  - injection Hj as ->. rewrite String.eqb_refl. cbn. now rewrite Nat.add_0_r.
  - destruct (String.eqb n name) eqn:E.
    + apply String.eqb_eq in E as ->. exfalso.
      assert (Hex : existsb (String.eqb name) names = true).
      { apply existsb_exists. exists name. split; [|apply String.eqb_refl].
        eapply nth_error_In; eauto. }
      congruence.
    + rewrite Nat.add_succ_r. apply (IH (S col) j Hdup Hj).
Qed.

(** Every column of the table, as [read_rdb] returns it, is the conversion
    of the fields at its position. *)
Lemma read_rdb_columns (text : string) (df : pd.DataFrame)
    (names hints hdr : list string) :
  read_rdb text = Ok (df, names, hints, hdr) ->
  exists rows,
    data_rows text = Ok rows /\
    pd.has_duplicates names = false /\
    pd.data df = pd.named_columns dtype_arg rows (pd.leading_cols rows names) names.
Proof.
  intros H. apply read_rdb_Ok in H as (st & Hst & _ & _ & _ & Hcsv).
  apply read_csv_Ok in Hcsv as (Hdup & rows & Hrows & Hread).
  exists rows. unfold data_rows. rewrite Hst. cbn [bind].
  auto using read_rows_data.
Qed.




(** ** What type inference can produce *)

Lemma try_int64_Converted (col : list string) (cells : list pd.Cell) (n : nat) :
  pd.try_int64 col = pd.Converted cells n ->
  Forall2 (fun word c => if pd.is_na word then c = pd.NaN else int_cell c) col cells /\
  n = List.length (filter pd.is_na col).
Proof.
  revert cells n. induction col as [|word col IH]; intros cells n; cbn [pd.try_int64 filter].
  - intros [= <- <-]. split; [constructor | reflexivity].
  - destruct (pd.is_na word) eqn:Hna.
    + destruct (pd.try_int64 col) as [cells' n'| | |]; try discriminate.
      intros [= <- <-]. destruct (IH _ _ eq_refl) as [HF ->].
      split; [constructor; [rewrite Hna; reflexivity | exact HF] | reflexivity].
    + destruct (pd.str_to_int64 word) as [z| | |]; try discriminate.
      destruct (pd.try_int64 col) as [cells' n'| | |]; try discriminate.
      intros [= <- <-]. destruct (IH _ _ eq_refl) as [HF ->].
      split; [constructor; [rewrite Hna; now exists z | exact HF] | reflexivity].
Qed.

Lemma try_double_Converted (col : list string) (cells : list pd.Cell) (n : nat) :
  pd.try_double col = pd.Converted cells n -> cells = float_cells col.
Proof.
  revert cells n. induction col as [|word col IH]; intros cells n;
    cbn [pd.try_double float_cells map].
  - now intros [= <- <-].
  - destruct (pd.is_na word).
    + destruct (pd.try_double col) as [cells' n'| | |]; try discriminate.
      intros [= <- <-]. now rewrite (IH _ _ eq_refl).
    + destruct (pd.to_double word); [|discriminate].
      destruct (pd.try_double col) as [cells' n'| | |]; try discriminate.
      intros [= <- <-]. now rewrite (IH _ _ eq_refl).
Qed.

Lemma try_bool_flex_Converted (col : list string) (cells : list pd.Cell) (n : nat) :
  pd.try_bool_flex col = pd.Converted cells n -> Forall2 bool_cell col cells.
Proof.
  revert cells n. induction col as [|word col IH]; intros cells n;
    cbn [pd.try_bool_flex].
  - intros [= <- <-]. constructor.
  - destruct (pd.is_na word) eqn:Hna.
    + destruct (pd.try_bool_flex col) as [cells' n'| | |]; try discriminate.
      intros [= <- <-]. constructor; [|now apply (IH _ n')].
      unfold bool_cell. now rewrite Hna.
    + destruct (pd.to_boolean word) as [b|]; [|discriminate].
      destruct (pd.try_bool_flex col) as [cells' n'| | |]; try discriminate.
      intros [= <- <-]. constructor; [|now apply (IH _ n')].
      unfold bool_cell. rewrite Hna. now exists b.
Qed.

(** The flags of the uint64 scan only go up, and an NA word sets
    [seen_null]. *)
Lemma str_to_uint64_flags (st st1 : pd.uint_state) (word : string) (r : pd.int_status) :
  pd.str_to_uint64 st word = (st1, r) ->
  (pd.seen_sint st = true -> pd.seen_sint st1 = true) /\
  (pd.seen_uint st = true -> pd.seen_uint st1 = true) /\
  (pd.seen_null st = true -> pd.seen_null st1 = true).
Proof.
  unfold pd.str_to_uint64.
  destruct (Ascii.eqb (pd.peek (pd.skip_spaces word)) "-").
  - intros [= <- _]. cbn. auto.
  - destruct (pd.read_digits 0 0 _) as [[number ndigits] p'].
    destruct (Nat.eqb ndigits 0); [intros [= <- _]; auto|].
    destruct (Z.ltb pd.UINT64_MAX number); [intros [= <- _]; auto|].
    destruct (pd.at_end p'); intros [= <- _]; cbn; auto.
    repeat split; auto. intros ->. reflexivity.
Qed.

Lemma try_uint64_words_Converted (col : list string) (st st' : pd.uint_state)
    (cells : list pd.Cell) (n : nat) :
  pd.try_uint64_words st col = (st', pd.Converted cells n) ->
  Forall2 (fun _ c => int_cell c) col cells /\
  (pd.seen_sint st = true -> pd.seen_sint st' = true) /\
  (pd.seen_uint st = true -> pd.seen_uint st' = true) /\
  (pd.seen_null st = true -> pd.seen_null st' = true) /\
  (existsb pd.is_na col = true -> pd.seen_null st' = true).
Proof.
  revert st st' cells n. induction col as [|word col IH]; intros st st' cells n;
    cbn [pd.try_uint64_words existsb].
  - intros [= <- <- <-]. split; [constructor|]. repeat split; auto. discriminate.
  - destruct (pd.is_na word) eqn:Hna.
    + destruct (pd.try_uint64_words _ col) as [st2 [cells' n'| | |]] eqn:Hrest;
        try discriminate.
      intros [= <- <- <-].
      destruct (IH _ _ _ _ Hrest) as (HF & Hs & Hu & Hn & _). cbn in Hs, Hu, Hn.
      split; [constructor; [now exists 0%Z | exact HF]|]. repeat split; auto.
    + destruct (pd.str_to_uint64 st word) as [st1 [number| | |]] eqn:Hword;
        try discriminate.
      destruct (pd.try_uint64_words st1 col) as [st2 [cells' n'| | |]] eqn:Hrest;
        try discriminate.
      intros [= <- <- <-].
      destruct (IH _ _ _ _ Hrest) as (HF & Hs & Hu & Hn & Hex).
      destruct (str_to_uint64_flags _ _ _ _ Hword) as (Hs1 & Hu1 & Hn1).
      split; [constructor; [now exists number | exact HF]|]. repeat split; auto.
Qed.

Lemma read_digits_nonneg (p : string) (number : Z) (n : nat) :
  (0 <= number)%Z -> (0 <= fst (fst (pd.read_digits number n p)))%Z.
Proof.
  revert number n. induction p as [|c p IH]; intros number n Hle; cbn [pd.read_digits].
  - exact Hle.
  - destruct (pd.isdigit_ascii c) eqn:Hd; [|exact Hle].
    apply IH. unfold pd.isdigit_ascii in Hd. apply andb_true_iff in Hd as [Hlo _].
    apply Nat.leb_le in Hlo. lia.
Qed.

(** A word that overflows int64 raises a flag of the uint64 scan. *)
Lemma int64_overflow_flag (st st1 : pd.uint_state) (word : string) (number : Z) :
  pd.str_to_int64 word = pd.ERROR_OVERFLOW ->
  pd.str_to_uint64 st word = (st1, pd.INT_OK number) ->
  pd.seen_uint st1 = true \/ pd.seen_sint st1 = true.
Proof.
  unfold pd.str_to_int64, pd.str_to_uint64.
  destruct (Ascii.eqb (pd.peek (pd.skip_spaces word)) "-") eqn:Hneg.
  - intros _ [= <- _]. right. reflexivity.
  - cbn [orb].
    pose proof (read_digits_nonneg
                  (if Ascii.eqb (pd.peek (pd.skip_spaces word)) "+"
                   then pd.next (pd.skip_spaces word) else pd.skip_spaces word)
                  0 0 (Z.le_refl 0)) as Hnn.
    destruct (pd.read_digits 0 0 _) as [[num ndigits] p'].
    cbn [fst] in Hnn.
    destruct (Nat.eqb ndigits 0); [discriminate|].
    destruct (Z.ltb num pd.INT64_MIN) eqn:Hmin.
    { apply Z.ltb_lt in Hmin. unfold pd.INT64_MIN in Hmin. lia. }
    cbn [orb]. destruct (Z.ltb pd.INT64_MAX num) eqn:Hmax.
    + intros _. destruct (Z.ltb pd.UINT64_MAX num); [discriminate|].
      destruct (pd.at_end p'); [|discriminate].
      intros [= <- _]. left. cbn. apply orb_true_r.
    + destruct (pd.at_end p'); discriminate.
Qed.

Lemma try_int64_Overflow_flag (col : list string) (st st' : pd.uint_state)
    (cells : list pd.Cell) (n : nat) :
  pd.try_int64 col = pd.Overflow ->
  pd.try_uint64_words st col = (st', pd.Converted cells n) ->
  pd.seen_uint st' = true \/ pd.seen_sint st' = true.
Proof.
  revert st st' cells n. induction col as [|word col IH]; intros st st' cells n;
    cbn [pd.try_int64 pd.try_uint64_words]; [discriminate|].
  destruct (pd.is_na word).
  - destruct (pd.try_int64 col) as [c' n'| | |] eqn:Hint; try discriminate.
    intros _.
    destruct (pd.try_uint64_words _ col) as [st2 [cells' n'| | |]] eqn:Hrest;
      try discriminate.
    intros [= <- _ _]. exact (IH _ _ _ _ eq_refl Hrest).
  - destruct (pd.str_to_uint64 st word) as [st1 [number| | |]] eqn:Hword;
      try (intros _; discriminate).
    destruct (pd.try_uint64_words st1 col) as [st2 [cells' n'| | |]] eqn:Hrest;
      try (intros _; discriminate).
    destruct (pd.str_to_int64 word) as [z| | |] eqn:Hint64; try discriminate.
    + destruct (pd.try_int64 col) as [c' n''| | |] eqn:Hint; try discriminate.
      intros _ [= <- _ _]. exact (IH _ _ _ _ eq_refl Hrest).
    + intros _ [= <- _ _].
      destruct (try_uint64_words_Converted _ _ _ _ _ Hrest) as (_ & Hs & Hu & _).
      destruct (int64_overflow_flag _ _ _ _ Hint64 Hword) as [H|H]; auto.
Qed.

Lemma forallb_not_na (col : list string) :
  existsb pd.is_na col = false -> Forall (fun word => pd.is_na word = false) col.
Proof.
  induction col as [|word col IH]; cbn [existsb]; [constructor|].
  intros H. apply orb_false_iff in H as [H1 H2]. constructor; auto.
Qed.

Lemma filter_na_nil (col : list string) :
  List.length (filter pd.is_na col) = 0 ->
  Forall (fun word => pd.is_na word = false) col.
Proof.
  induction col as [|word col IH]; cbn [filter]; [constructor|].
  destruct (pd.is_na word) eqn:Hna; [discriminate|]. constructor; auto.
Qed.

Lemma try_int64_no_conflict (col : list string) :
  pd.try_int64 col <> pd.NumericConflict.
Proof.
  induction col as [|word col IH]; cbn [pd.try_int64]; [discriminate|].
  destruct (pd.is_na word).
  - destruct (pd.try_int64 col); congruence.
  - destruct (pd.str_to_int64 word); try discriminate.
    destruct (pd.try_int64 col); congruence.
Qed.

(** The attempts that follow int64: float64, bool, then text. *)
Ltac after_int64 col :=
  let cells := fresh "cells" in
  let n := fresh "n" in
  let Hd := fresh "Hd" in
  let Hb := fresh "Hb" in
  destruct (pd.try_double col) as [cells n| | |] eqn:Hd;
  [ apply inferred_float; exact (try_double_Converted _ _ _ Hd)
  | destruct (pd.try_bool_flex col) as [cells n| | |] eqn:Hb;
    try (now apply inferred_text);
    apply inferred_bool; exact (try_bool_flex_Converted _ _ _ Hb) .. ].

Lemma infer_column_inferred (col : list string) : inferred col (pd.infer_column col).
Proof.
  unfold pd.infer_column.
  destruct (pd.try_int64 col) as [cells n| | |] eqn:Hint.
  - apply try_int64_Converted in Hint as [HF ->].
    destruct (Nat.eqb _ 0) eqn:Hn.
    + apply Nat.eqb_eq in Hn. pose proof (filter_na_nil _ Hn) as Hna.
      apply inferred_int; [exact Hna|].
      clear Hn. induction HF as [|word c col cells Hc HF IH]; [constructor|].
      inversion Hna as [|? ? Hw Hrest]; subst. rewrite Hw in Hc.
      constructor; auto.
    + now apply inferred_float.
  - after_int64 col.
  - unfold pd.try_uint64.
    destruct (pd.try_uint64_words _ col) as [st' [cells n| | |]] eqn:Hu.
    + destruct (try_uint64_words_Converted _ _ _ _ _ Hu) as (HF & _ & _ & _ & Hnull).
      destruct (try_int64_Overflow_flag _ _ _ _ _ Hint Hu) as [Hflag|Hflag].
      * rewrite Hflag. cbn [andb].
        destruct (pd.seen_null st' || pd.seen_sint st')%bool eqn:Hor.
        -- now apply inferred_as_is.
        -- apply orb_false_iff in Hor as [Hn Hs]. rewrite Hs. cbn [Nat.eqb].
           apply inferred_int; [|exact HF]. apply forallb_not_na.
           destruct (existsb pd.is_na col); [|reflexivity].
           rewrite Hnull in Hn by reflexivity. discriminate.
      * rewrite Hflag, orb_true_r, andb_true_r.
        destruct (pd.seen_uint st'); [now apply inferred_as_is | now apply inferred_text].
    + after_int64 col.
    + cbn. now apply inferred_text.
    + cbn. now apply inferred_as_is.
  - now apply try_int64_no_conflict in Hint.
Qed.

Lemma Forall2_same_length {A B : Type} (R : A -> B -> Prop) (l : list A) (l' : list B) :
  Forall2 R l l' -> List.length l' = List.length l.
Proof. induction 1; cbn; congruence. Qed.

Lemma inferred_length (col : list string) (cells : list pd.Cell) :
  inferred col cells -> List.length cells = List.length col.
Proof.
  intros [_ HF | -> | HF | -> | _ ->];
    try (exact (Forall2_same_length _ _ _ HF));
    unfold float_cells, pd.string_convert; apply length_map.
Qed.

Lemma convert_tokens_length (dt : option pd.DType) (col : list string) :
  List.length (pd.convert_tokens dt col) = List.length col.
Proof.
  destruct dt as [[]|]; cbn [pd.convert_tokens].
  - unfold pd.string_convert. apply length_map.
  - apply inferred_length, infer_column_inferred.
Qed.

Lemma named_columns_lengths (dt : list (string * pd.DType))
    (rows : list (list string)) (col : nat) (names : list string) :
  Forall (fun named => List.length (snd named) = List.length rows)
         (pd.named_columns dt rows col names) /\
  map fst (pd.named_columns dt rows col names) = names.
Proof.
  revert col. induction names as [|name names IH]; intros col; cbn [pd.named_columns map].
  - split; [constructor | reflexivity].
  - destruct (IH (S col)) as [HF Hn]. split.
    + constructor; [|exact HF]. cbn [snd].
      rewrite convert_tokens_length. unfold pd.coliter. apply length_map.
    + cbn [fst]. now rewrite Hn.
Qed.

(** ** Lines with too few or too many fields *)

Lemma nth_pad_row (width col : nat) (row : list string) :
  nth col (pad_row width row) EmptyString = nth col row EmptyString.
Proof.
  unfold pad_row. destruct (Nat.lt_ge_cases col (List.length row)) as [Hlt|Hge].
  - now apply app_nth1.
  - rewrite app_nth2 by exact Hge. rewrite nth_repeat.
    symmetry. now apply nth_overflow.
Qed.

Lemma coliter_pad (width col : nat) (rows : list (list string)) :
  pd.coliter col (map (pad_row width) rows) = pd.coliter col rows.
Proof.
  unfold pd.coliter. rewrite map_map. apply map_ext. intros row. apply nth_pad_row.
Qed.

Lemma named_columns_pad (dt : list (string * pd.DType)) (width : nat)
    (rows : list (list string)) (col : nat) (names : list string) :
  pd.named_columns dt (map (pad_row width) rows) col names =
  pd.named_columns dt rows col names.
Proof.
  revert col. induction names as [|name names IH]; intros col; cbn [pd.named_columns];
    [reflexivity|].
  now rewrite coliter_pad, IH.
Qed.

Lemma index_columns_pad (width : nat) (rows : list (list string)) (k : nat) :
  pd.index_columns (map (pad_row width) rows) k = pd.index_columns rows k.
Proof.
  unfold pd.index_columns. apply map_ext. intros col. now rewrite coliter_pad.
Qed.

Lemma length_pad_row (width : nat) (row : list string) :
  List.length (pad_row width row) = Nat.max (List.length row) width.
Proof. unfold pad_row. rewrite length_app, repeat_length. lia. Qed.

Lemma check_fields_Ok (width : nat) (rows : list (list string)) :
  (forall row, In row rows -> List.length row <= width) ->
  pd.check_fields width rows = Ok tt.
Proof.
  intros H. unfold pd.check_fields.
  replace (forallb _ rows) with true; [reflexivity|].
  symmetry. apply forallb_forall. intros row Hin. apply Nat.leb_le. auto.
Qed.

Lemma check_fields_Raise (width : nat) (rows : list (list string)) :
  (exists row, In row rows /\ width < List.length row) ->
  pd.check_fields width rows = Raise ParserError.
Proof.
  intros (row & Hin & Hlt). unfold pd.check_fields.
  destruct (forallb _ rows) eqn:Hall; [|reflexivity].
  rewrite forallb_forall in Hall. specialize (Hall row Hin).
  apply Nat.leb_le in Hall. lia.
Qed.

(** Reading the lines is reading them completed to the width of the
    table. *)
Lemma read_rows_pad (first : list string) (others : list (list string))
    (names : list string) (dt : list (string * pd.DType)) :
  let width := Nat.max (List.length first) (List.length names) in
  (forall row, In row others -> List.length row <= width) ->
  pd.read_rows (map (pad_row width) (first :: others)) names dt =
  pd.read_rows (first :: others) names dt.
Proof.
  intros width Hle. cbn [map]. unfold pd.read_rows.
  assert (Hfirst : Nat.max (List.length (pad_row width first)) (List.length names) = width).
  { rewrite length_pad_row. unfold width. lia. }
  rewrite Hfirst. fold width.
  rewrite (check_fields_Ok width others Hle).
  rewrite (check_fields_Ok width (map (pad_row width) others)).
  - cbn [bind]. unfold pd.leading_cols. cbn [hd]. rewrite Hfirst. fold width.
    change (pad_row width first :: map (pad_row width) others)
      with (map (pad_row width) (first :: others)).
    now rewrite index_columns_pad, named_columns_pad.
  - intros row Hin. apply in_map_iff in Hin as (row0 & <- & Hin0).
    rewrite length_pad_row. specialize (Hle row0 Hin0). lia.
Qed.

(** For the lines of a data block none of which is too long, [read_csv]
    returns the table of their columns. *)
Lemma read_csv_rows (buf : string) (names first : list string)
    (others : list (list string)) :
  pd.has_duplicates names = false ->
  pd.tokenize_all_rows buf = Ok (first :: others) ->
  (forall row, In row others ->
     List.length row <= Nat.max (List.length first) (List.length names)) ->
  pd.read_csv buf names dtype_arg =
    Ok {| pd.index := pd.index_columns (first :: others)
                        (pd.leading_cols (first :: others) names);
          pd.data := pd.named_columns dtype_arg (first :: others)
                       (pd.leading_cols (first :: others) names) names |}.
Proof.
  intros Hdup Htok Hle. unfold pd.read_csv, pd.validate_names.
  rewrite Hdup, Htok. cbn [bind]. unfold pd.read_rows.
  now rewrite (check_fields_Ok _ others Hle).
Qed.




(** ** Empty fields *)

Lemma is_na_empty : pd.is_na EmptyString = true.
Proof. reflexivity. Qed.

Lemma Forall2_nth_error {A B : Type} (R : A -> B -> Prop) (l : list A) (l' : list B)
    (i : nat) (a : A) :
  Forall2 R l l' -> nth_error l i = Some a ->
  exists b, nth_error l' i = Some b /\ R a b.
Proof.
  intros HF. revert i. induction HF as [|x y l l' Hxy HF IH]; intros i.
  - destruct i; discriminate.
  - destruct i as [|i]; cbn [nth_error].
    + intros [= <-]. eauto.
    + apply IH.
Qed.

(** The cell of an empty field in an inferred column: NaN, unless the
    column is kept as it is after an int64 overflow. *)
Lemma inferred_empty (col : list string) (cells : list pd.Cell) (i : nat) :
  inferred col cells -> nth_error col i = Some EmptyString ->
  nth_error cells i = Some pd.NaN \/
  (nth_error cells i = Some (pd.CStr EmptyString) /\
   cells = pd.string_convert false col /\ pd.try_int64 col = pd.Overflow).
Proof.
  intros [Hna _ | -> | HF | -> | Hov ->] Hi.
  - rewrite Forall_forall in Hna.
    specialize (Hna _ (nth_error_In _ _ Hi)). discriminate.
  - left. unfold float_cells. now rewrite (map_nth_error _ _ _ Hi).
  - left. destruct (Forall2_nth_error _ _ _ _ _ HF Hi) as (c & Hc & Hb).
    unfold bool_cell in Hb. rewrite is_na_empty in Hb. now subst.
  - left. unfold pd.string_convert. now rewrite (map_nth_error _ _ _ Hi).
  - right. unfold pd.string_convert. now rewrite (map_nth_error _ _ _ Hi).
Qed.

(** Without an integer literal outside the int64 range, reading a column
    as int64 does not overflow. *)
Lemma try_int64_not_Overflow (col : list string) :
  Forall (fun word => pd.str_to_int64 word <> pd.ERROR_OVERFLOW) col ->
  pd.try_int64 col <> pd.Overflow.
Proof.
  induction 1 as [|word col Hw _ IH]; cbn [pd.try_int64]; [discriminate|].
  destruct (pd.is_na word).
  - destruct (pd.try_int64 col); congruence.
  - destruct (pd.str_to_int64 word); try discriminate; [|congruence].
    destruct (pd.try_int64 col); congruence.
Qed.

(** C2, as the code has it.  An empty field is read as NaN in a column
    that the dtype argument makes text ([site_no], [parameter_cd]) just as
    in a column whose type is inferred (integers, floats or anything else):
    the two are the same marker, and never the empty string.  (Left out:
    an inferred column that holds an integer literal outside the int64
    range, which pandas reads differently from one version to the next.) *)
Theorem empty_fields_are_missing (text : string) (df : pd.DataFrame)
    (names hints hdr : list string) :
  read_rdb text = Ok (df, names, hints, hdr) ->
  exists rows,
    data_rows text = Ok rows /\
    forall j name i row,
      nth_error names j = Some name ->
      nth_error rows i = Some row ->
      nth (pd.leading_cols rows names + j) row EmptyString = EmptyString ->
      name = "site_no" \/ name = "parameter_cd" \/
      Forall (fun word => pd.str_to_int64 word <> pd.ERROR_OVERFLOW)
             (pd.coliter (pd.leading_cols rows names + j) rows) ->
      exists cells,
        pd.column df name = Some cells /\ nth_error cells i = Some pd.NaN.
Proof.
  intros H. apply read_rdb_columns in H as (rows & Hrows & Hdup & Hdata).
  exists rows. split; [exact Hrows|].
  intros j name i row Hj Hrow Hempty Hname.
  unfold pd.column. rewrite Hdata, (named_columns_lookup _ _ _ _ _ _ Hdup Hj).
  eexists. split; [reflexivity|].
  assert (Hword : nth_error (pd.coliter (pd.leading_cols rows names + j) rows) i
                  = Some EmptyString).
  { unfold pd.coliter. rewrite (map_nth_error _ _ _ Hrow). now rewrite Hempty. }
  assert (Htext : nth_error
                    (pd.string_convert true
                       (pd.coliter (pd.leading_cols rows names + j) rows)) i
                  = Some pd.NaN).
  { unfold pd.string_convert. now rewrite (map_nth_error _ _ _ Hword). }
  destruct (pd.dict_get dtype_arg name) as [[]|] eqn:Hdt; cbn [pd.convert_tokens];
    [exact Htext|].
  destruct Hname as [-> | [-> | Hsafe]]; try discriminate.
  destruct (inferred_empty _ _ i (infer_column_inferred _) Hword)
    as [Hnan | (_ & _ & Hov)]; [exact Hnan|].
  now apply try_int64_not_Overflow in Hsafe.
Qed.

Lemma empty_fields_are_missing_witness :
  exists rows,
    data_rows empty_field_example = Ok rows /\
    (exists cells, pd.column empty_field_frame "site_no" = Some cells /\
                   nth_error cells 1 = Some pd.NaN) /\
    (exists cells, pd.column empty_field_frame "x" = Some cells /\
                   nth_error cells 2 = Some pd.NaN).
Proof.
  destruct (empty_fields_are_missing empty_field_example empty_field_frame
              ["site_no"; "x"] ["15s"; "6n"] []) as (rows & Hrows & Hcells);
    [vm_compute; reflexivity|].
  exists rows. split; [exact Hrows|].
  vm_compute in Hrows. injection Hrows as <-.
  split.
  - apply (Hcells 0 "site_no" 1 [EmptyString; "2"]); [reflexivity..|].
    left. reflexivity.
  - apply (Hcells 1 "x" 2 ["03"; EmptyString]); [reflexivity..|].
    right. right. repeat constructor; vm_compute; discriminate.
Defined.

(** The claim as the spec states it fails on [empty_field_example]: the
    empty field of the text column [site_no] (second line) is NaN, not the
    empty string, and so is the empty field of the numeric column [x]
    (third line). *)
Lemma empty_fields_counterexample :
  data_rows empty_field_example
    = Ok [["01"; "1"]; [EmptyString; "2"]; ["03"; EmptyString]] /\
  read_rdb empty_field_example
    = Ok (empty_field_frame, ["site_no"; "x"], ["15s"; "6n"], []) /\
  pd.column empty_field_frame "site_no"
    = Some [pd.CStr "01"; pd.NaN; pd.CStr "03"] /\
  pd.column empty_field_frame "x"
    = Some [pd.CFloat "1"; pd.CFloat "2"; pd.NaN] /\
  pd.NaN <> pd.CStr EmptyString.
Proof. repeat split; try (vm_compute; reflexivity). discriminate. Qed.

(** ** Columns of dates *)

Lemma digit_neq (c k : ascii) :
  pd.isdigit_ascii c = true -> pd.isdigit_ascii k = false -> Ascii.eqb c k = false.
Proof.
  intros Hc Hk. destruct (Ascii.eqb_spec c k) as [->|]; [congruence | reflexivity].
Qed.

Lemma digit_code (c : ascii) :
  pd.isdigit_ascii c = true -> 48 <= nat_of_ascii c <= 57.
Proof.
  unfold pd.isdigit_ascii. intros H. apply andb_true_iff in H as [H1 H2].
  apply Nat.leb_le in H1, H2. lia.
Qed.

Lemma digit_not_space (c : ascii) :
  pd.isdigit_ascii c = true -> pd.isspace_ascii c = false.
Proof.
  intros H. apply digit_code in H. unfold pd.isspace_ascii, code_in. cbn [existsb].
  repeat match goal with
         | |- context [Nat.eqb ?a ?b] =>
             destruct (Nat.eqb_spec a b); [lia|]
         end.
  reflexivity.
Qed.

Lemma digit_lower (c : ascii) : pd.isdigit_ascii c = true -> pd.lower c = c.
Proof.
  intros H. apply digit_code in H. unfold pd.lower.
  destruct (Nat.leb_spec 65 (nat_of_ascii c)); [lia | reflexivity].
Qed.

Lemma read_digits_digit (c : ascii) (p : string) (number : Z) (n : nat) :
  pd.isdigit_ascii c = true ->
  pd.read_digits number n (String c p) =
  pd.read_digits (number * 10 + (Z.of_nat (nat_of_ascii c) - 48)) (S n) p.
Proof. intros H. cbn [pd.read_digits]. now rewrite H. Qed.

(** The shape of a date word: four digits, a hyphen, and the rest. *)
Lemma is_date_word_inv (word : string) :
  is_date_word word = true ->
  exists y1 y2 y3 y4 rest,
    word = String y1 (String y2 (String y3 (String y4 (String "-" rest)))) /\
    pd.isdigit_ascii y1 = true /\ pd.isdigit_ascii y2 = true /\
    pd.isdigit_ascii y3 = true /\ pd.isdigit_ascii y4 = true.
Proof.
  unfold is_date_word.
  destruct word as [|y1 [|y2 [|y3 [|y4 [|h1 [|m1 [|m2 [|h2 [|d1 [|d2 [|x rest]]]]]]]]]]];
    cbn [list_ascii_of_string]; try discriminate.
  cbn [forallb]. intros H.
  repeat match type of H with
         | (_ && _)%bool = true => apply andb_true_iff in H as [H ?]
         end.
  repeat match goal with
         | Hx : (_ && _)%bool = true |- _ => apply andb_true_iff in Hx as [? Hx]
         end.
  match goal with Hh : Ascii.eqb h1 "-" = true |- _ => apply Ascii.eqb_eq in Hh as -> end.
  eauto 10.
Qed.

Section DateWord.

Variable word : string.
Hypothesis Hdate : is_date_word word = true.

Lemma date_word_digits :
  exists y1 rest number,
    word = String y1 rest /\ pd.isdigit_ascii y1 = true /\
    (0 <= number <= 9999)%Z /\
    exists tail, pd.read_digits 0 0 word = (number, 4, String "-" tail).
Proof.
  destruct (is_date_word_inv word Hdate) as (y1 & y2 & y3 & y4 & rest & -> & H1 & H2 & H3 & H4).
  eexists y1, _, _. split; [reflexivity|]. split; [exact H1|].
  rewrite !read_digits_digit by assumption.
  pose proof (digit_code _ H1). pose proof (digit_code _ H2).
  pose proof (digit_code _ H3). pose proof (digit_code _ H4).
  split; [|exists rest; reflexivity]. lia.
Qed.

Lemma date_word_not_sign :
  pd.skip_spaces word = word /\
  Ascii.eqb (pd.peek word) "-" = false /\ Ascii.eqb (pd.peek word) "+" = false.
Proof.
  destruct date_word_digits as (y1 & rest & number & -> & H1 & _).
  cbn [pd.skip_spaces pd.peek]. rewrite (digit_not_space _ H1).
  repeat split; apply (digit_neq _ _ H1); reflexivity.
Qed.

Lemma date_word_not_int : pd.str_to_int64 word = pd.ERROR_INVALID_CHARS.
Proof.
  unfold pd.str_to_int64.
  destruct date_word_not_sign as (-> & -> & ->). cbn [orb].
  destruct date_word_digits as (y1 & rest & number & _ & _ & Hnum & tail & ->).
  cbn [Nat.eqb].
  replace (Z.ltb number pd.INT64_MIN) with false
    by (symmetry; apply Z.ltb_ge; unfold pd.INT64_MIN; lia).
  replace (Z.ltb pd.INT64_MAX number) with false
    by (symmetry; apply Z.ltb_ge; unfold pd.INT64_MAX; lia).
  reflexivity.
Qed.

Lemma date_word_not_inf (other : string) :
  pd.isdigit_ascii (pd.lower (pd.peek other)) = false ->
  pd.strcasecmp_eq word other = false.
Proof.
  destruct date_word_digits as (y1 & rest & number & -> & H1 & _).
  destruct other as [|k other]; [reflexivity|]. cbn [pd.peek pd.strcasecmp_eq].
  intros Hk. rewrite (digit_lower _ H1), (digit_neq _ _ H1 Hk). reflexivity.
Qed.

Lemma date_word_not_double : pd.to_double word = false.
Proof.
  unfold pd.to_double. apply orb_false_iff. split.
  - unfold pd.xstrtod_ok, pd.skip_sign.
    destruct date_word_not_sign as (-> & -> & ->). cbn [orb].
    destruct date_word_digits as (y1 & rest & number & _ & _ & _ & tail & ->).
    reflexivity.
  - cbn [existsb]. rewrite !date_word_not_inf by reflexivity. reflexivity.
Qed.

Lemma date_word_not_boolean : pd.to_boolean word = None.
Proof.
  unfold pd.to_boolean. rewrite !date_word_not_inf by reflexivity. reflexivity.
Qed.

Lemma date_word_not_na : pd.is_na word = false.
Proof.
  destruct (is_date_word_inv word Hdate)
    as (y1 & y2 & y3 & y4 & rest & -> & H1 & H2 & _).
  unfold pd.is_na, pd.STR_NA_VALUES. cbn [existsb String.eqb].
  repeat match goal with
         | |- context [Ascii.eqb y1 ?k] => rewrite (digit_neq y1 k H1 eq_refl)
         end.
  destruct (Ascii.eqb y1 "1"); [|reflexivity].
  repeat match goal with
         | |- context [Ascii.eqb y2 ?k] => rewrite (digit_neq y2 k H2 eq_refl)
         end.
  reflexivity.
Qed.

Lemma date_word_not_empty : String.eqb word EmptyString = false.
Proof.
  destruct date_word_digits as (y1 & rest & number & -> & _). reflexivity.
Qed.

End DateWord.

Lemma date_column_text (col : list string) :
  Forall date_or_empty col -> pd.string_convert true col = date_cells col.
Proof.
  intros HF. unfold pd.string_convert, date_cells. apply map_ext_in.
  intros word Hin. rewrite Forall_forall in HF.
  destruct (HF word Hin) as [-> | Hd]; [reflexivity|].
  now rewrite (date_word_not_na word Hd), (date_word_not_empty word Hd).
Qed.

Lemma empty_column_int64 (col : list string) :
  Forall (fun word => word = EmptyString) col ->
  pd.try_int64 col = pd.Converted (date_cells col) (List.length col).
Proof.
  induction 1 as [|word col -> _ IH]; [reflexivity|].
  cbn [pd.try_int64]. rewrite is_na_empty, IH. reflexivity.
Qed.

Lemma date_column_attempts (col : list string) :
  Forall date_or_empty col ->
  Forall (fun word => word = EmptyString) col \/
  (pd.try_int64 col = pd.NoResult /\ pd.try_double col = pd.NoResult /\
   pd.try_bool_flex col = pd.NoResult).
Proof.
  induction 1 as [|word col Hw _ IH]; [left; constructor|].
  destruct Hw as [-> | Hd].
  - destruct IH as [Hall | (Hi & Hf & Hb)]; [left; now constructor|].
    right. cbn [pd.try_int64 pd.try_double pd.try_bool_flex].
    rewrite is_na_empty, Hi, Hf, Hb. auto.
  - right. cbn [pd.try_int64 pd.try_double pd.try_bool_flex].
    rewrite (date_word_not_na word Hd), (date_word_not_int word Hd),
      (date_word_not_double word Hd), (date_word_not_boolean word Hd). auto.
Qed.

(** In a column of dates YYYY-MM-DD and empty fields the dates stay text
    and the empty fields are NaN. *)
Lemma infer_date_column (col : list string) :
  Forall date_or_empty col -> pd.infer_column col = date_cells col.
Proof.
  intros HF. destruct (date_column_attempts col HF) as [Hall | (Hi & Hf & Hb)].
  - unfold pd.infer_column. rewrite (empty_column_int64 col Hall).
    destruct (Nat.eqb (List.length col) 0); [reflexivity|].
    rewrite <- (date_column_text col HF). unfold pd.upcast_int, pd.string_convert.
    apply map_ext_in. intros word Hin. rewrite Forall_forall in Hall.
    now rewrite (Hall word Hin).
  - unfold pd.infer_column. rewrite Hi, Hf, Hb. now apply date_column_text.
Qed.

(** The exceptions [read_csv] and [read_rdb] can end in. *)
Lemma tokenize_all_rows_Raise (buf : string) (e : exn) :
  pd.tokenize_all_rows buf = Raise e -> e = ParserError.
Proof.
  unfold pd.tokenize_all_rows, pd.parser_handle_eof.
  destruct (pd.state _); try discriminate. now intros [= <-].
Qed.

Lemma read_rows_Raise (rows : list (list string)) (names : list string)
    (dt : list (string * pd.DType)) (e : exn) :
  pd.read_rows rows names dt = Raise e -> e = EmptyDataError \/ e = ParserError.
Proof.
  unfold pd.read_rows, pd.check_fields. destruct rows as [|first others].
  - destruct names; [|discriminate]. intros [= <-]. auto.
  - destruct (forallb _ others); cbn [bind]; [discriminate|]. intros [= <-]. auto.
Qed.

Lemma read_csv_Raise (buf : string) (names : list string)
    (dt : list (string * pd.DType)) (e : exn) :
  pd.read_csv buf names dt = Raise e ->
  In e [ValueError "Duplicate names are not allowed."; EmptyDataError; ParserError].
Proof.
  unfold pd.read_csv, pd.validate_names.
  destruct (pd.has_duplicates names); cbn [bind]; [intros [= <-]; simpl; auto|].
  destruct (pd.tokenize_all_rows buf) as [rows|e0] eqn:Htok; cbn [bind].
  - intros H. apply read_rows_Raise in H as [-> | ->]; simpl; auto.
  - intros [= <-]. apply tokenize_all_rows_Raise in Htok as ->. simpl; auto.
Qed.

Lemma read_rdb_Raise (text : string) (e : exn) :
  read_rdb text = Raise e ->
  In e [ IndexError; UnboundLocalError "columns"; UnboundLocalError "dtype";
         ValueError "Duplicate names are not allowed."; EmptyDataError; ParserError ].
Proof.
  rewrite read_rdb_after_loop.
  destruct (for_lines (splitlines text) initial_locals) as [st|e0] eqn:Hst; cbn [bind].
  - unfold after_loop. destruct (columns st) as [names|]; cbn [load bind];
      [|intros [= <-]; simpl; auto].
    destruct (pd.read_csv _ names dtype_arg) as [df|e0] eqn:Hcsv; cbn [bind].
    + destruct (dtype st); cbn [load bind]; [discriminate|].
      intros [= <-]. simpl; auto.
    + intros [= <-]. apply read_csv_Raise in Hcsv. simpl in Hcsv. simpl.
      intuition auto.
  - apply for_lines_Raise in Hst as [-> _]. intros [= <-]. simpl; auto.
Qed.




(** * Properties of [stats] *)

Lemma getitem_setitem (d : dict) (key value k : string) :
  (exists v, getitem d k = Ok v) -> exists v, getitem (setitem d key value) k = Ok v.
Proof.
  unfold getitem, pd.dict_get. induction d as [|[k0 v0] d IH]; cbn [setitem find fst].
  - intros [v Hv]. discriminate.
  - destruct (String.eqb k0 key) eqn:Hkey; cbn [find fst];
      destruct (String.eqb k0 k) eqn:Hk; cbn; eauto.
Qed.

Lemma getitem_update (d other : dict) (k : string) :
  (exists v, getitem d k = Ok v) -> exists v, getitem (update d other) k = Ok v.
Proof.
  unfold update. revert d. induction other as [|[key value] other IH]; intros d Hd;
    cbn [fold_left]; [exact Hd|].
  apply IH. cbn [fst snd]. now apply getitem_setitem.
Qed.


(** C9.  A response with status 204: [stats] displays the body and calls
    no parser, but [raise_for_status] raises nothing for this code and
    [stats] returns the response to its caller as an ordinary value. *)
Theorem stats_no_content_returns :
  let response := requests.mkResponse 204 "<html>No Content</html>" "u" in
  stats (fun _ _ _ => response) "01546500" "daily" [] =
    ( [ print "Retrieving daily statistics for site #01546500 from u";
        print "The USGS has returned an error code of 204";
        display_HTML "<html>No Content</html>" ],
      Ok (returned_response response) ).
Proof. vm_compute. reflexivity. Qed.

(** With an error status the failure is signalled. *)
Example stats_not_found_raises :
  snd (stats (fun _ _ _ => requests.mkResponse 404 "<html>Not Found</html>" "u")
             "01546500" "daily" [])
  = Raise (HTTPError 404).
Proof. vm_compute. reflexivity. Qed.


(** * Further properties of [read_rdb] *)

(** ** The sections of a document *)

(** X1.  What [read_rdb] returns comes from the document section by
    section: the column names are the words of its first line that is not a
    comment, the hints the words of the second, the header its comment
    lines, and the table what [read_csv] reads, under those names, from the
    remaining lines that are not comments, joined by newlines. *)
Theorem read_rdb_sections (text : string) (df : pd.DataFrame)
    (names hints hdr : list string) :
  read_rdb text = Ok (df, names, hints, hdr) ->
  exists row1 row2 rest,
    non_comment_lines text = row1 :: row2 :: rest /\
    names = split row1 /\ hints = split row2 /\
    hdr = filter is_comment_line (splitlines text) /\
    pd.read_csv (join_lines rest) names dtype_arg = Ok df.
Proof.
  intros H. apply read_rdb_Ok in H as (st & Hst & Hcol & Hdt & Hh & Hcsv).
  destruct (for_lines_from_zero _ initial_locals _ eq_refl Hst) as (Hcol' & Hdt' & Hd).
  unfold non_comment_lines.
  destruct (filter non_comment (splitlines text)) as [|row1 [|row2 rest]].
  - rewrite Hcol in Hcol'. discriminate.
  - rewrite Hdt in Hdt'. discriminate.
  - exists row1, row2, rest. split; [reflexivity|].
    rewrite Hcol in Hcol'. rewrite Hdt in Hdt'.
    injection Hcol' as ->. injection Hdt' as ->.
    cbn [skipn datalines initial_locals app] in Hd. rewrite Hd in Hcsv.
    rewrite <- Hh, (for_lines_header _ _ _ Hst). auto.
Qed.

Lemma read_rdb_sections_witness :
  exists row1 row2 rest,
    non_comment_lines header_example = row1 :: row2 :: rest /\
    ["site_no"; "x"] = split row1 /\ ["5s"; "3n"] = split row2 /\
    ["#"; "# a"; "#late"] = filter is_comment_line (splitlines header_example) /\
    pd.read_csv (join_lines rest) ["site_no"; "x"] dtype_arg
      = Ok {| pd.index := [];
              pd.data := [("site_no", [pd.CStr "01"]); ("x", [pd.CInt 2])] |}.
Proof.
  apply (read_rdb_sections header_example). vm_compute. reflexivity.
Defined.

(** ** When [read_rdb] raises *)

Lemma after_loop_Raise (st : locals) (e : exn) :
  after_loop st = Raise e ->
  (e = UnboundLocalError "columns" /\ columns st = None) \/
  (e = UnboundLocalError "dtype" /\ dtype st = None /\
   exists names df, columns st = Some names /\
     pd.read_csv (join_lines (datalines st)) names dtype_arg = Ok df) \/
  (exists names, columns st = Some names /\
     pd.read_csv (join_lines (datalines st)) names dtype_arg = Raise e).
Proof.
  unfold after_loop. destruct (columns st) as [names|]; cbn [load bind].
  - destruct (pd.read_csv _ names dtype_arg) as [df|e0] eqn:Hcsv; cbn [bind].
    + destruct (dtype st); cbn [load bind]; [discriminate|].
      intros [= <-]. right. left. eauto 10.
    + intros [= <-]. right. right. eauto.
  - intros [= <-]. auto.
Qed.

Lemma read_csv_not_python (buf : string) (names : list string) (e : exn) :
  pd.read_csv buf names dtype_arg = Raise e ->
  e <> IndexError /\ (forall name, e <> UnboundLocalError name).
Proof.
  intros H. apply read_csv_Raise in H. simpl in H.
  destruct H as [<-|[<-|[<-|[]]]]; split; intros; discriminate.
Qed.

(** X2.  [read_rdb] raises IndexError exactly on the texts that have an
    empty line. *)
Theorem read_rdb_IndexError_iff (text : string) :
  read_rdb text = Raise IndexError <-> In EmptyString (splitlines text).
Proof.
  split.
  - rewrite read_rdb_after_loop.
    destruct (for_lines (splitlines text) initial_locals) as [st|e] eqn:Hst;
      cbn [bind].
    + intros H. apply after_loop_Raise in H
        as [[H _] | [(H & _) | (names & _ & H)]]; try discriminate.
      apply read_csv_not_python in H as [H _]. congruence.
    + intros _. now apply for_lines_Raise in Hst as [_ Hin].
  - intros Hin. rewrite read_rdb_after_loop. now rewrite (for_lines_blank _ _ Hin).
Qed.

(** X3.  [read_rdb] raises UnboundLocalError for [columns] exactly on the
    texts without a line that is not a comment, and UnboundLocalError for
    [dtype] exactly on the texts with one such line whose words are
    distinct names, at least one. *)
Theorem read_rdb_unbound_iff (text : string) :
  (read_rdb text = Raise (UnboundLocalError "columns") <->
   non_comment_lines text = []) /\
  (read_rdb text = Raise (UnboundLocalError "dtype") <->
   exists row, non_comment_lines text = [row] /\ split row <> [] /\
               pd.has_duplicates (split row) = false).
Proof.
  unfold non_comment_lines. rewrite read_rdb_after_loop. split; split.
  - destruct (for_lines (splitlines text) initial_locals) as [st|e] eqn:Hst;
      cbn [bind].
    + intros H. apply after_loop_Raise in H
        as [[_ Hcol] | [(H & _) | (names & _ & H)]]; try discriminate.
      * destruct (for_lines_from_zero _ initial_locals _ eq_refl Hst) as (Hcol' & _).
        rewrite Hcol in Hcol'.
        now destruct (filter non_comment (splitlines text)).
      * apply read_csv_not_python in H as [_ H]. now destruct (H "columns").
    + apply for_lines_Raise in Hst as [-> _]. discriminate.
  - intros Hnil. now rewrite (for_lines_comments _ _ Hnil).
  - destruct (for_lines (splitlines text) initial_locals) as [st|e] eqn:Hst;
      cbn [bind].
    + intros H. apply after_loop_Raise in H
        as [[H _] | [(_ & Hdt & names & df & Hcol & Hcsv) | (names & _ & H)]];
        try discriminate.
      * destruct (for_lines_from_zero _ initial_locals _ eq_refl Hst) as (Hcol' & Hdt' & Hd).
        rewrite Hcol in Hcol'. rewrite Hdt in Hdt'.
        destruct (filter non_comment (splitlines text)) as [|row [|row2 rest]];
          try discriminate.
        exists row. split; [reflexivity|]. injection Hcol' as <-.
        cbn in Hd. rewrite Hd, read_csv_no_data in Hcsv.
        destruct (pd.has_duplicates names); [discriminate|].
        split; [|reflexivity]. intros ->. discriminate.
      * apply read_csv_not_python in H as [_ H]. now destruct (H "dtype").
    + apply for_lines_Raise in Hst as [-> _]. discriminate.
  - intros (row & Hrow & Hne & Hdup).
    destruct (for_lines (splitlines text) initial_locals) as [st|e] eqn:Hst;
      cbn [bind].
    + destruct (for_lines_from_zero _ initial_locals _ eq_refl Hst) as (Hcol & Hdt & Hd).
      rewrite Hrow in Hcol, Hdt, Hd. cbn in Hcol, Hdt, Hd.
      unfold after_loop. rewrite Hcol, Hdt, Hd. cbn [load bind].
      rewrite read_csv_no_data, Hdup.
      destruct (split row); [congruence | reflexivity].
    + apply for_lines_Raise in Hst as [_ Hin].
      assert (Hin' : In EmptyString (filter non_comment (splitlines text)))
        by (apply filter_In; auto).
      rewrite Hrow in Hin'. destruct Hin' as [->|[]]. now destruct Hne.
Qed.

(** C8.  Header preservation.  The line loop finishes on every text
    without an empty line, and then the header list is exactly the lines
    that begin with the comment marker (a lone [#] among them), verbatim and
    in their original order.  Whenever [read_rdb] returns, the header list
    it returns is that list; and it does return it, with the table, for
    every text without an empty line that has its two rows and a data block
    [read_csv] accepts. *)
Theorem header_preserved (text : string) :
  (Forall (fun line => line <> EmptyString) (splitlines text) ->
   exists st, for_lines (splitlines text) initial_locals = Ok st /\
              header st = filter is_comment_line (splitlines text)) /\
  (forall df names hints hdr,
     read_rdb text = Ok (df, names, hints, hdr) ->
     hdr = filter is_comment_line (splitlines text)) /\
  (forall row1 row2 rest df,
     ~ In EmptyString (splitlines text) ->
     non_comment_lines text = row1 :: row2 :: rest ->
     pd.read_csv (join_lines rest) (split row1) dtype_arg = Ok df ->
     read_rdb text =
       Ok (df, split row1, split row2, filter is_comment_line (splitlines text))).
Proof.
  split; [|split].
  - intros Hall. destruct (for_lines_total _ initial_locals Hall) as [st Hst].
    exists st. split; [exact Hst|]. now rewrite (for_lines_header _ _ _ Hst).
  - intros df names hints hdr H.
    apply read_rdb_Ok in H as (st & Hst & _ & _ & <- & _).
    now rewrite (for_lines_header _ _ _ Hst).
  - unfold non_comment_lines. intros row1 row2 rest df Hnin Hrows Hcsv.
    destruct (proj2 (for_lines_Ok_iff _ initial_locals) Hnin) as [st Hst].
    rewrite read_rdb_after_loop, Hst. cbn [bind].
    destruct (for_lines_from_zero _ initial_locals _ eq_refl Hst) as (Hcol & Hdt & Hd).
    rewrite Hrows in Hcol, Hdt, Hd. cbn [skipn datalines initial_locals app] in Hd.
    unfold after_loop. rewrite Hcol, Hdt, Hd. cbn [load bind]. rewrite Hcsv.
    cbn [bind]. now rewrite (for_lines_header _ _ _ Hst).
Qed.

Lemma header_preserved_witness :
  read_rdb header_example =
    Ok ({| pd.index := [];
           pd.data := [("site_no", [pd.CStr "01"]); ("x", [pd.CInt 2])] |},
        ["site_no"; "x"], ["5s"; "3n"], ["#"; "# a"; "#late"]).
Proof.
  apply (proj2 (proj2 (header_preserved header_example))
           ("site_no" ++ tab ++ "x")%string ("5s" ++ tab ++ "3n")%string
           [("01" ++ tab ++ "2")%string]).
  - vm_compute. intros [H|[H|[H|[H|[H|[H|[]]]]]]]; discriminate.
  - reflexivity.
  - vm_compute. reflexivity.
Defined.

(** X4.  A column-name row that names a column twice makes [read_rdb]
    fail with the ValueError of pandas, whatever the data lines hold. *)
Theorem duplicate_names_raise (text row1 : string) (rest : list string) :
  non_comment_lines text = row1 :: rest ->
  ~ In EmptyString (splitlines text) ->
  pd.has_duplicates (split row1) = true ->
  read_rdb text = Raise (ValueError "Duplicate names are not allowed.").
Proof.
  unfold non_comment_lines. intros Hrow Hnin Hdup.
  destruct (proj2 (for_lines_Ok_iff _ initial_locals) Hnin) as [st Hst].
  rewrite read_rdb_after_loop, Hst. cbn [bind].
  destruct (for_lines_from_zero _ initial_locals _ eq_refl Hst) as (Hcol & _).
  rewrite Hrow in Hcol. unfold after_loop. rewrite Hcol. cbn [load bind].
  unfold pd.read_csv, pd.validate_names. now rewrite Hdup.
Qed.

Lemma duplicate_names_raise_witness :
  read_rdb ("site_no" ++ tab ++ "x" ++ tab ++ "x" ++ nl ++ "5s" ++ tab ++ "3n"
            ++ tab ++ "3n" ++ nl ++ "01" ++ tab ++ "1" ++ tab ++ "2" ++ nl)
  = Raise (ValueError "Duplicate names are not allowed.").
Proof.
  apply (duplicate_names_raise _ ("site_no" ++ tab ++ "x" ++ tab ++ "x")%string
           [("5s" ++ tab ++ "3n" ++ tab ++ "3n")%string;
            ("01" ++ tab ++ "1" ++ tab ++ "2")%string]).
  - reflexivity.
  - vm_compute. intros [H|[H|[H|[]]]]; discriminate.
  - reflexivity.
Defined.

Lemma index_columns_lengths (rows : list (list string)) (k : nat) :
  Forall (fun level => List.length level = List.length rows)
         (pd.index_columns rows k).
Proof.
  unfold pd.index_columns. apply Forall_forall. intros level Hin.
  apply in_map_iff in Hin as (col & <- & _).
  rewrite convert_tokens_length. unfold pd.coliter. apply length_map.
Qed.

Lemma read_rows_index (rows : list (list string)) (names : list string)
    (dt : list (string * pd.DType)) (df : pd.DataFrame) :
  pd.read_rows rows names dt = Ok df ->
  pd.index df = pd.index_columns rows (pd.leading_cols rows names).
Proof.
  unfold pd.read_rows. destruct rows as [|first others].
  - destruct names as [|n names]; [discriminate|]. intros [= <-].
    unfold pd.leading_cols. cbn [hd List.length Nat.max pd.index].
    now rewrite Nat.sub_diag.
  - destruct (pd.check_fields _ others); cbn [bind]; [|discriminate].
    now intros [= <-].
Qed.



(** X6.  A document with its two rows and no data line gives the empty
    table: the named columns, distinct names at least one, without a
    cell. *)
Theorem no_data_lines_empty_table (text row1 row2 name : string)
    (names : list string) :
  non_comment_lines text = [row1; row2] ->
  row1 <> EmptyString -> row2 <> EmptyString ->
  split row1 = name :: names -> pd.has_duplicates (name :: names) = false ->
  read_rdb text =
    Ok ({| pd.index := []; pd.data := map (fun n => (n, [])) (name :: names) |},
        name :: names, split row2, filter is_comment_line (splitlines text)).
Proof.
  unfold non_comment_lines. intros Hrows Hne1 Hne2 Hsplit Hdup.
  assert (Hnin : ~ In EmptyString (splitlines text)).
  { rewrite empty_line_non_comment, Hrows. intros [H|[H|[]]]; congruence. }
  destruct (proj2 (for_lines_Ok_iff _ initial_locals) Hnin) as [st Hst].
  rewrite read_rdb_after_loop, Hst. cbn [bind].
  destruct (for_lines_from_zero _ initial_locals _ eq_refl Hst) as (Hcol & Hdt & Hd).
  rewrite Hrows in Hcol, Hdt, Hd. cbn in Hd.
  unfold after_loop.
  rewrite Hcol, Hdt, Hd, Hsplit, (for_lines_header _ _ _ Hst). cbn [load bind].
  rewrite read_csv_no_data, Hdup. reflexivity.
Qed.

Lemma no_data_lines_empty_table_witness :
  read_rdb ("# no data" ++ nl ++ "site_no" ++ tab ++ "x" ++ nl
            ++ "15s" ++ tab ++ "6n" ++ nl)
  = Ok ({| pd.index := []; pd.data := [("site_no", []); ("x", [])] |},
        ["site_no"; "x"], ["15s"; "6n"], ["# no data"]).
Proof.
  apply (no_data_lines_empty_table
           ("# no data" ++ nl ++ "site_no" ++ tab ++ "x" ++ nl
            ++ "15s" ++ tab ++ "6n" ++ nl)
           ("site_no" ++ tab ++ "x")%string ("15s" ++ tab ++ "6n")%string
           "site_no" ["x"]);
    try reflexivity; discriminate.
Defined.

(** X7.  Comment lines never reach the table: two texts with the same
    lines that are not comments, in the same order, give [read_rdb] the
    same exception, or the same table, names and hints. *)
Theorem comments_do_not_affect_table (text1 text2 : string) :
  non_comment_lines text1 = non_comment_lines text2 ->
  match read_rdb text1, read_rdb text2 with
  | Ok (df1, names1, hints1, _), Ok (df2, names2, hints2, _) =>
      df1 = df2 /\ names1 = names2 /\ hints1 = hints2
  | Raise e1, Raise e2 => e1 = e2
  | _, _ => False
  end.
Proof.
  unfold non_comment_lines. intros Heq. rewrite !read_rdb_after_loop.
  destruct (for_lines (splitlines text1) initial_locals) as [st1|e1] eqn:H1;
    destruct (for_lines (splitlines text2) initial_locals) as [st2|e2] eqn:H2;
    cbn [bind].
  - destruct (for_lines_from_zero _ initial_locals _ eq_refl H1) as (Hc1 & Hd1 & Hl1).
    destruct (for_lines_from_zero _ initial_locals _ eq_refl H2) as (Hc2 & Hd2 & Hl2).
    rewrite Heq in Hc1, Hd1, Hl1. rewrite <- Hc2 in Hc1. rewrite <- Hd2 in Hd1.
    rewrite <- Hl2 in Hl1. unfold after_loop. rewrite Hc1, Hd1, Hl1.
    destruct (columns st2) as [names|]; cbn [load bind]; [|reflexivity].
    destruct (pd.read_csv _ names dtype_arg) as [df|e]; cbn [bind]; [|reflexivity].
    destruct (dtype st2); cbn [load bind]; auto.
  - exfalso. apply for_lines_Raise in H2 as [_ Hin].
    apply empty_line_non_comment in Hin. rewrite <- Heq in Hin.
    apply empty_line_non_comment in Hin.
    exact (for_lines_Ok_nonblank _ _ _ H1 Hin).
  - exfalso. apply for_lines_Raise in H1 as [_ Hin].
    apply empty_line_non_comment in Hin. rewrite Heq in Hin.
    apply empty_line_non_comment in Hin.
    exact (for_lines_Ok_nonblank _ _ _ H2 Hin).
  - apply for_lines_Raise in H1 as [-> _]. apply for_lines_Raise in H2 as [-> _].
    reflexivity.
Qed.

Lemma comments_do_not_affect_table_witness :
  match read_rdb header_example,
        read_rdb ("site_no" ++ tab ++ "x" ++ nl ++ "5s" ++ tab ++ "3n" ++ nl
                  ++ "01" ++ tab ++ "2" ++ nl) with
  | Ok (df1, names1, hints1, _), Ok (df2, names2, hints2, _) =>
      df1 = df2 /\ names1 = names2 /\ hints1 = hints2
  | Raise e1, Raise e2 => e1 = e2
  | _, _ => False
  end.
Proof.
  apply (comments_do_not_affect_table header_example). reflexivity.
Defined.

(** ** The data block *)

Lemma splitlines_LF (rest : string) :
  splitlines (String LF rest) = EmptyString :: splitlines rest.
Proof. destruct rest; reflexivity. Qed.

Lemma splitlines_line_LF (line rest : string) :
  no_linebreak line ->
  splitlines (line ++ String LF rest) = line :: splitlines rest.
Proof.
  unfold no_linebreak. induction line as [|c line IH]; intros Hnb.
  - apply splitlines_LF.
  - cbn [list_ascii_of_string forallb] in Hnb.
    apply andb_true_iff in Hnb as [Hc Hline]. apply negb_true_iff in Hc.
    cbn [append splitlines]. rewrite Hc, (IH Hline). reflexivity.
Qed.

Lemma splitlines_line (line : string) :
  no_linebreak line -> line <> EmptyString -> splitlines line = [line].
Proof.
  unfold no_linebreak. induction line as [|c line IH]; intros Hnb Hne; [congruence|].
  cbn [list_ascii_of_string forallb] in Hnb.
  apply andb_true_iff in Hnb as [Hc Hline]. apply negb_true_iff in Hc.
  cbn [splitlines]. rewrite Hc. destruct line as [|c' line']; [reflexivity|].
  rewrite (IH Hline) by discriminate. reflexivity.
Qed.

Lemma splitlines_join_lines (lines : list string) :
  Forall no_linebreak lines -> ~ In EmptyString lines ->
  splitlines (join_lines lines) = lines.
Proof.
  unfold join_lines. induction 1 as [|line lines Hline _ IH]; intros Hnin;
    [reflexivity|].
  cbn [String.concat]. destruct lines as [|line' lines'].
  - apply splitlines_line; [exact Hline|]. intros ->. apply Hnin. now left.
  - cbn [append]. rewrite (splitlines_line_LF _ _ Hline). f_equal.
    apply IH. intros Hin. apply Hnin. now right.
Qed.

Lemma loop_body_datalines_nonblank (st st' : locals) (line : string) :
  ~ In EmptyString (datalines st) -> loop_body st line = Ok st' ->
  ~ In EmptyString (datalines st').
Proof.
  intros Hnin H Hin.
  destruct (loop_body_datalines _ _ _ _ H Hin) as [Hin' | Heq]; [auto|].
  symmetry in Heq. exact (loop_body_Ok_nonblank _ _ _ H Heq).
Qed.

(** X8.  Joining the data lines loses nothing: the data block handed to
    [read_csv], split at its line breaks again, is the list of the data
    lines. *)
Theorem data_block_round_trip (text : string) (st : locals) :
  for_lines (splitlines text) initial_locals = Ok st ->
  splitlines (join_lines (datalines st)) = datalines st.
Proof.
  intros H. apply splitlines_join_lines.
  - exact (datalines_no_linebreak _ _ H).
  - intros Hin. destruct (for_lines_datalines _ _ _ _ H Hin) as [[] | Hin'].
    exact (for_lines_Ok_nonblank _ _ _ H Hin').
Qed.

Lemma data_block_round_trip_witness :
  splitlines (join_lines [("1" ++ tab ++ "2")%string; "3"])
  = [("1" ++ tab ++ "2")%string; "3"].
Proof.
  apply (data_block_round_trip short_row_example
           (short_row_locals [("1" ++ tab ++ "2")%string; "3"])).
  reflexivity.
Defined.

(** * Further properties of [stats] *)


(** X10.  On status 200 [stats] displays nothing and hands the body to
    [read_rdb]: it returns the table [read_rdb] returns, or raises what
    [read_rdb] raises. *)
Theorem stats_200 (requests_get : string -> dict -> dict -> requests.Response)
    (site statReportType : string) (kwargs : dict) :
  let response := the_response requests_get site statReportType kwargs in
  requests.status_code response = 200%Z ->
  exists line,
    stats requests_get site statReportType kwargs =
      ( [print line; call_read_rdb (requests.text response)],
        match read_rdb (requests.text response) with
        | Ok (outputDF, _, _, _) => Ok (returned_frame outputDF)
        | Raise e => Raise e
        end ).
Proof.
  intros response Hstatus. unfold stats.
  fold (the_response requests_get site statReportType kwargs). fold response.
  destruct (getitem_update
              [("statReportType", statReportType); ("statType", "all");
               ("sites", site); ("format", "rdb")] kwargs "statReportType")
    as [report ->]; [eexists; reflexivity|].
  destruct (getitem_update
              [("statReportType", statReportType); ("statType", "all");
               ("sites", site); ("format", "rdb")] kwargs "sites")
    as [sites ->]; [eexists; reflexivity|].
  rewrite Hstatus. cbn [Z.eqb Pos.eqb negb]. eexists.
  destruct (read_rdb (requests.text response)) as [[[[df names] hints] hdr]|e];
    reflexivity.
Qed.

Lemma stats_200_witness :
  exists line,
    stats (fun _ _ _ => requests.mkResponse 200 identifier_example "u")
          "01546500" "daily" [] =
      ( [print line; call_read_rdb identifier_example],
        Ok (returned_frame identifier_frame) ).
Proof.
  destruct (stats_200 (fun _ _ _ => requests.mkResponse 200 identifier_example "u")
              "01546500" "daily" [] eq_refl) as [line H].
  exists line. exact H.
Defined.

Lemma dict_get_setitem (d : dict) (key value k : string) :
  pd.dict_get (setitem d key value) k =
  if String.eqb key k then Some value else pd.dict_get d k.
Proof.
  unfold pd.dict_get. induction d as [|[k0 v0] d IH]; cbn [setitem find fst].
  - now destruct (String.eqb key k).
  - destruct (String.eqb_spec k0 key) as [->|Hne]; cbn [find fst].
    + now destruct (String.eqb key k).
    + destruct (String.eqb_spec k0 k) as [->|Hne'].
      * destruct (String.eqb_spec key k) as [->|_]; [congruence | reflexivity].
      * exact IH.
Qed.

Lemma dict_get_not_in (d : dict) (k : string) :
  ~ In k (map fst d) -> pd.dict_get d k = None.
Proof.
  unfold pd.dict_get. induction d as [|[k0 v0] d IH]; cbn [map fst find In];
    [reflexivity|].
  intros Hnin. destruct (String.eqb_spec k0 k) as [->|_]; [tauto|].
  apply IH. tauto.
Qed.



(** * Properties of [rating_curve], [field_meas] and [peaks] *)

Lemma read_rdb_Ok_names (text : string) (df : pd.DataFrame)
    (names hints hdr : list string) :
  read_rdb text = Ok (df, names, hints, hdr) -> map fst (pd.data df) = names.
Proof.
  intros H. apply read_rdb_columns in H as (rows & _ & _ & ->).
  apply named_columns_lengths.
Qed.

Lemma combine_fst_snd {A B : Type} (l : list A) (l' : list B) :
  List.length l = List.length l' ->
  map fst (combine l l') = l /\ map snd (combine l l') = l'.
Proof.
  revert l'. induction l as [|a l IH]; intros [|b l'] Hlen; try discriminate;
    [split; reflexivity|].
  cbn in Hlen. injection Hlen as Hlen. destruct (IH l' Hlen) as [H1 H2].
  cbn. now rewrite H1, H2.
Qed.

(** X12.  [rating_curve] only succeeds on a document with exactly four
    column names: it then renames the columns, in order, to stage, shift,
    discharge and stor, and keeps their cells and the index; with any other
    number of names the assignment of the columns raises ValueError. *)
Theorem rating_curve_four_columns
    (requests_get : string -> dict -> dict -> requests.Response) (site : string)
    (df : pd.DataFrame) (names hints hdr : list string) :
  let url := ("https://waterdata.usgs.gov/nwisweb/data/ratings/exsa/USGS."
              ++ site ++ ".exsa.rdb")%string in
  let response := requests_get url [("Accept-encoding", "gzip")] [] in
  read_rdb (requests.text response) = Ok (df, names, hints, hdr) ->
  (List.length names = 4 ->
   exists df',
     snd (rating_curve requests_get site) = Ok df' /\
     map fst (pd.data df') = ["stage"; "shift"; "discharge"; "stor"] /\
     map snd (pd.data df') = map snd (pd.data df) /\
     pd.index df' = pd.index df) /\
  (List.length names <> 4 ->
   exists msg, snd (rating_curve requests_get site) = Raise (ValueError msg)).
Proof.
  intros url response H.
  pose proof (read_rdb_Ok_names _ _ _ _ _ H) as Hnames.
  assert (Hlen : List.length (pd.data df) = List.length names)
    by (rewrite <- Hnames; symmetry; apply length_map).
  unfold rating_curve. fold url. fold response.
  unfold io_bind, emit, lift, io_ret. rewrite H. cbn [snd].
  unfold frame.set_columns. rewrite Hlen. split.
  - intros H4. rewrite H4. cbn [List.length Nat.eqb]. eexists. cbn [snd app].
    split; [reflexivity|]. cbn [pd.data pd.index].
    destruct (combine_fst_snd ["stage"; "shift"; "discharge"; "stor"]
                (map snd (pd.data df))) as [H1 H2].
    { rewrite length_map, Hlen, H4. reflexivity. }
    auto.
  - intros Hne. cbn [List.length].
    destruct (Nat.eqb_spec 4 (List.length names)) as [Heq|_]; [congruence|].
    eexists. reflexivity.
Qed.

Lemma rating_curve_four_columns_witness :
  exists df',
    snd (rating_curve (fun _ _ _ => requests.mkResponse 200 rating_example "u")
                      "01541200") = Ok df' /\
    map fst (pd.data df') = ["stage"; "shift"; "discharge"; "stor"] /\
    map snd (pd.data df')
      = [[pd.CFloat "2.75"]; [pd.CFloat "0.00"]; [pd.CFloat "13.5"]; [pd.CStr "*"]] /\
    pd.index df' = [].
Proof.
  apply (proj1 (rating_curve_four_columns
                  (fun _ _ _ => requests.mkResponse 200 rating_example "u")
                  "01541200"
                  {| pd.index := [];
                     pd.data := [ ("INDEP", [pd.CFloat "2.75"]);
                                  ("SHIFT", [pd.CFloat "0.00"]);
                                  ("DEP", [pd.CFloat "13.5"]);
                                  ("STOR", [pd.CStr "*"]) ] |}
                  ["INDEP"; "SHIFT"; "DEP"; "STOR"] ["16N"; "16N"; "16N"; "1S"] []
                  ltac:(vm_compute; reflexivity))).
  reflexivity.
Defined.

(** ** The date column becomes the index *)

Lemma column_None (df : pd.DataFrame) (name : string) :
  ~ In name (map fst (pd.data df)) -> pd.column df name = None.
Proof.
  unfold pd.column, pd.dict_get. induction (pd.data df) as [|[n cells] cols IH];
    cbn [map fst In find]; [reflexivity|].
  intros Hnin. destruct (String.eqb_spec n name) as [->|_]; [tauto|].
  apply IH. tauto.
Qed.

Lemma column_Some (df : pd.DataFrame) (name : string) :
  In name (map fst (pd.data df)) -> exists cells, pd.column df name = Some cells.
Proof.
  unfold pd.column, pd.dict_get. induction (pd.data df) as [|[n cells] cols IH];
    cbn [map fst In find]; [tauto|].
  intros [-> | Hin].
  - rewrite String.eqb_refl. cbn. eauto.
  - destruct (String.eqb n name); cbn; eauto.
Qed.

Lemma dict_get_replace_column (cols : list (string * list pd.Cell)) (name : string)
    (old values : list pd.Cell) :
  pd.dict_get cols name = Some old ->
  pd.dict_get (frame.replace_column cols name values) name = Some values.
Proof.
  unfold pd.dict_get. induction cols as [|[n cells] cols IH];
    cbn [frame.replace_column find fst]; [discriminate|].
  destruct (String.eqb n name) eqn:Hn; cbn [find fst]; rewrite Hn;
    [reflexivity | exact IH].
Qed.

Lemma filter_replace_column (cols : list (string * list pd.Cell)) (name : string)
    (values : list pd.Cell) :
  filter (fun named => negb (String.eqb (fst named) name))
         (frame.replace_column cols name values)
  = filter (fun named => negb (String.eqb (fst named) name)) cols.
Proof.
  induction cols as [|[n cells] cols IH]; cbn [frame.replace_column]; [reflexivity|].
  destruct (String.eqb n name) eqn:Hn; cbn [filter fst]; rewrite Hn; cbn [negb];
    [reflexivity | now rewrite IH].
Qed.

(** Replacing a column by its timestamps and making it the index. *)
Lemma set_index_setattr (df : pd.DataFrame) (name : string)
    (old values : list pd.Cell) :
  pd.column df name = Some old ->
  frame.set_index (frame.setattr df name values) name =
    Ok {| pd.index := [values];
          pd.data := filter (fun named => negb (String.eqb (fst named) name))
                            (pd.data df) |}.
Proof.
  intros Hold. unfold frame.set_index, frame.setattr, pd.column. cbn [pd.data].
  now rewrite (dict_get_replace_column _ _ _ values Hold), filter_replace_column.
Qed.

(** X13.  [field_meas] on a document that [read_rdb] reads: without a
    column [measurement_dt] it ends in AttributeError; with one, it raises
    what [pd.to_datetime] raises on that column, or returns the frame whose
    index is the column of timestamps and whose columns are the other
    columns, untouched and in their order. *)
Theorem field_meas_index
    (requests_get : string -> dict -> dict -> requests.Response)
    (to_datetime : list pd.Cell -> result (list pd.Cell)) (site : string)
    (df : pd.DataFrame) (names hints hdr : list string) :
  let url := ("https://waterdata.usgs.gov/pa/nwis/measurements?site_no="
              ++ site ++ "&agency_cd=USGS&format=rdb_expanded")%string in
  let response := requests_get url [("Accept-encoding", "gzip")] [] in
  read_rdb (requests.text response) = Ok (df, names, hints, hdr) ->
  (~ In "measurement_dt" names ->
   snd (field_meas requests_get to_datetime site)
     = RaisesAttributeError "measurement_dt") /\
  (In "measurement_dt" names ->
   exists cells,
     pd.column df "measurement_dt" = Some cells /\
     snd (field_meas requests_get to_datetime site) =
       match to_datetime cells with
       | Raise e => Raises e
       | Ok converted =>
           Returns
             {| pd.index := [converted];
                pd.data :=
                  filter (fun named => negb (String.eqb (fst named) "measurement_dt"))
                         (pd.data df) |}
       end).
Proof.
  intros url response H.
  pose proof (read_rdb_Ok_names _ _ _ _ _ H) as Hnames.
  unfold field_meas. fold url. fold response. rewrite H. unfold frame.getattr.
  split.
  - intros Hnin. rewrite <- Hnames in Hnin. now rewrite (column_None _ _ Hnin).
  - intros Hin. rewrite <- Hnames in Hin.
    destruct (column_Some _ _ Hin) as [cells Hcells]. exists cells.
    split; [exact Hcells|]. rewrite Hcells. cbn [snd].
    destruct (to_datetime cells) as [converted|e]; cbn [bind outcome_of];
      [|reflexivity].
    now rewrite (set_index_setattr _ _ _ converted Hcells).
Qed.

Lemma field_meas_index_witness :
  snd (field_meas (fun _ _ _ => requests.mkResponse 200 measurement_example "u")
                  timestamps "01541200")
  = Returns {| pd.index := [[pd.CTimestamp "2020-01-01"]];
               pd.data := [ ("site_no", [pd.CStr "01541200"]);
                            ("discharge_va", [pd.CFloat "2.5"]) ] |}.
Proof.
  destruct (proj2 (field_meas_index
                     (fun _ _ _ => requests.mkResponse 200 measurement_example "u")
                     timestamps "01541200"
                     {| pd.index := [];
                        pd.data := [ ("site_no", [pd.CStr "01541200"]);
                                     ("measurement_dt", [pd.CStr "2020-01-01"]);
                                     ("discharge_va", [pd.CFloat "2.5"]) ] |}
                     ["site_no"; "measurement_dt"; "discharge_va"]
                     ["15s"; "19d"; "12s"] []
                     ltac:(vm_compute; reflexivity))
                  ltac:(right; left; reflexivity))
    as (cells & Hcells & Hreturn).
  vm_compute in Hcells. injection Hcells as <-. exact Hreturn.
Defined.

(** X14.  [peaks] does the same with the column [peak_dt]. *)
Theorem peaks_index
    (requests_get : string -> dict -> dict -> requests.Response)
    (to_datetime : list pd.Cell -> result (list pd.Cell)) (site : string)
    (df : pd.DataFrame) (names hints hdr : list string) :
  let url := ("https://nwis.waterdata.usgs.gov/nwis/peak?site_no="
              ++ site ++ "&agency_cd=USGS&format=rdb")%string in
  let response := requests_get url [("Accept-encoding", "gzip")] [] in
  read_rdb (requests.text response) = Ok (df, names, hints, hdr) ->
  (~ In "peak_dt" names ->
   snd (peaks requests_get to_datetime site) = RaisesAttributeError "peak_dt") /\
  (In "peak_dt" names ->
   exists cells,
     pd.column df "peak_dt" = Some cells /\
     snd (peaks requests_get to_datetime site) =
       match to_datetime cells with
       | Raise e => Raises e
       | Ok converted =>
           Returns
             {| pd.index := [converted];
                pd.data :=
                  filter (fun named => negb (String.eqb (fst named) "peak_dt"))
                         (pd.data df) |}
       end).
Proof.
  intros url response H.
  pose proof (read_rdb_Ok_names _ _ _ _ _ H) as Hnames.
  unfold peaks. fold url. fold response. rewrite H. unfold frame.getattr.
  split.
  - intros Hnin. rewrite <- Hnames in Hnin. now rewrite (column_None _ _ Hnin).
  - intros Hin. rewrite <- Hnames in Hin.
    destruct (column_Some _ _ Hin) as [cells Hcells]. exists cells.
    split; [exact Hcells|]. rewrite Hcells. cbn [snd].
    destruct (to_datetime cells) as [converted|e]; cbn [bind outcome_of];
      [|reflexivity].
    now rewrite (set_index_setattr _ _ _ converted Hcells).
Qed.

Lemma peaks_index_witness :
  snd (peaks (fun _ _ _ => requests.mkResponse 200 peak_example "u")
             timestamps "01541200")
  = Returns {| pd.index := [[pd.CTimestamp "1936-03-18"]];
               pd.data := [ ("site_no", [pd.CStr "01541200"]);
                            ("peak_va", [pd.CInt 25600]) ] |}.
Proof.
  destruct (proj2 (peaks_index
                     (fun _ _ _ => requests.mkResponse 200 peak_example "u")
                     timestamps "01541200"
                     {| pd.index := [];
                        pd.data := [ ("site_no", [pd.CStr "01541200"]);
                                     ("peak_dt", [pd.CStr "1936-03-18"]);
                                     ("peak_va", [pd.CInt 25600]) ] |}
                     ["site_no"; "peak_dt"; "peak_va"]
                     ["15s"; "10d"; "8s"] []
                     ltac:(vm_compute; reflexivity))
                  ltac:(right; left; reflexivity))
    as (cells & Hcells & Hreturn).
  vm_compute in Hcells. injection Hcells as <-. exact Hreturn.
Defined.
